(** * CourseProject: the route handlers of the online-course API

    A shallow embedding of the Express route handlers of the repository
    ([routes/users.js], [routes/lessons.js], [routes/quizzes.js],
    [routes/submissions.js], [routes/courses.js], [routes/enrollments.js])
    and of the route table of [server.js], over an explicit model of the
    Mongoose collections they call.

    Conventions of the model.
    - A handler is a function from the request and the database to the
      outcome of the request and the database afterwards: one request,
      run from its first line to its last with no other request in
      between.  The one handler with a read and a write in two awaits,
      the user create, is also given from its second await on.
    - A stored identifier is an [ObjectId]: 24 hexadecimal digits.  The
      identifier of a request ([req.params.id], a criterion of a list, a
      reference in a body) is a string, and Mongoose casts it where it is
      used; a string that is no identifier makes the call reject.
    - The values of a request body are strings and arrays of strings.
      Mongoose casts them to the type of the path they are given to and
      rejects what does not cast.  References are stored as the text of
      their identifier.  The keys of a body are taken as names of fields:
      a key with a [.] or a [$] names no path of a schema here, and the
      properties of bodies are stated for keys without them.
    - The identifier a [new Model(...)] generates is an argument of the
      handler, and so is the time of the creation where a schema uses it.
    - A rejected call is caught where the handler has a [catch]; in a
      handler without one the promise of the handler is rejected and no
      response is sent.
    - The message of an error is kept as the error it is the message of:
      Mongoose's wording is outside the model.
    - The server's regular-expression engine is a parameter of the course
      list; what is assumed of it is stated with each property. *)

From Stdlib Require Import Ascii String.
From stdpp Require Import base strings list option gmap.

#[local] Open Scope string_scope.
#[local] Open Scope list_scope.
#[local] Set Warnings "-register-all".

(** ** Identifiers *)

(** ASCII case folding. *)
Definition to_lower (c : ascii) : ascii :=
  let n := nat_of_ascii c in
  if (65 <=? n)%nat && (n <=? 90)%nat then ascii_of_nat (n + 32) else c.

Fixpoint lower (s : string) : string :=
  match s with
  | EmptyString => EmptyString
  | String c s' => String (to_lower c) (lower s')
  end.

(** A hexadecimal digit, in lower case. *)
Definition hex_digit (c : ascii) : bool :=
  let n := nat_of_ascii c in
  ((48 <=? n)%nat && (n <=? 57)%nat) || ((97 <=? n)%nat && (n <=? 102)%nat).

(** The text of an identifier as [toHexString] gives it: 24 hexadecimal
    digits, in lower case. *)
Definition hexadecimal (s : string) : bool :=
  bool_decide (String.length s = 24%nat)
  && forallb hex_digit (list_ascii_of_string s).

(** An identifier of the store, given by its text. *)
Record ObjectId := HexString {
  toHexString :> string;
  ObjectId_hexadecimal : hexadecimal toHexString
}.

#[global] Instance ObjectId_eq_dec : EqDecision ObjectId.
Proof.
  refine (λ i j, cast_if (decide (toHexString i = toHexString j))).
  - destruct i as [s Hs], j as [t Ht]. cbn in *. subst t.
    f_equal. apply proof_irrel.
  - intros ->. contradiction.
Defined.

(** The cast of a string to an identifier: 24 hexadecimal digits in
    either case are read, every other string is refused. *)
Definition castObjectId (s : string) : option ObjectId :=
  match decide (Is_true (hexadecimal (lower s))) with
  | left H => Some (HexString (lower s) H)
  | right _ => None
  end.

(** ** Values, documents and JSON *)

Inductive value :=
| VStr (s : string)
| VList (l : list string).

#[global] Instance value_eq_dec : EqDecision value.
Proof. solve_decision. Defined.

(** JavaScript truthiness of [obj.key] where the key may be absent
    ([undefined]): the empty string and [undefined] are falsy, an array is
    always truthy. *)
Definition truthy (v : option value) : bool :=
  match v with
  | None => false
  | Some (VStr s) => bool_decide (s ≠ "")
  | Some (VList _) => true
  end.

(** The same for a query-string parameter, which is a string when present. *)
Definition truthy_param (v : option string) : bool :=
  match v with
  | None => false
  | Some s => bool_decide (s ≠ "")
  end.

(** A stored document: the identifier and the version key Mongoose manages,
    and the fields that come from the schema. *)
Record doc := Doc {
  _id : ObjectId;
  fields : gmap string value;
  __v : N
}.

(** ** Models and schemas *)

Inductive model := User | Course | Lesson | Quiz | Submission | Enrollment.

#[global] Instance model_eq_dec : EqDecision model.
Proof. solve_decision. Defined.

Definition modelName (M : model) : string :=
  match M with
  | User => "User" | Course => "Course" | Lesson => "Lesson"
  | Quiz => "Quiz" | Submission => "Submission" | Enrollment => "Enrollment"
  end.

(** The types the schemas give their paths. *)
Inductive schematype :=
| SString
| SObjectId (R : model)
| SDate.

#[global] Instance schematype_eq_dec : EqDecision schematype.
Proof. solve_decision. Defined.

(** One path of a schema: [{ type, ref, required }], or an array of such. *)
Record path := Path {
  is_array : bool;
  type : schematype;
  required : bool
}.

#[global] Instance path_eq_dec : EqDecision path.
Proof. solve_decision. Defined.

(** The model a path refers to, [ref]. *)
Definition ref (p : path) : option model :=
  match type p with
  | SObjectId R => Some R
  | _ => None
  end.

Definition quizSchema : list (string * path) :=
  [ ("question", Path false SString true);
    ("options", Path true SString false);
    ("answer", Path false SString true);
    ("lesson", Path false (SObjectId Lesson) true) ].

Definition courseSchema : list (string * path) :=
  [ ("title", Path false SString true);
    ("description", Path false SString false);
    ("instructor", Path false (SObjectId User) true);
    ("lessons", Path true (SObjectId Lesson) false) ].

Definition lessonSchema : list (string * path) :=
  [ ("title", Path false SString true);
    ("content", Path false SString false);
    ("course", Path false (SObjectId Course) true) ].

Definition submissionSchema : list (string * path) :=
  [ ("student", Path false (SObjectId User) true);
    ("quiz", Path false (SObjectId Quiz) true);
    ("answer", Path false SString true) ].

(** Modelled from the spec: [models/User.js] is not among the sources.
    Section 3 of the specification gives User the fields name, email and
    role, all three required, and states that no entity is validated
    beyond the presence of its required fields and that the uniqueness of
    email is enforced by the route only. *)
Definition userSchema : list (string * path) :=
  [ ("name", Path false SString true);
    ("email", Path false SString true);
    ("role", Path false SString true) ].

(** Modelled from the spec: [models/Enrollment.js] is not among the
    sources.  Section 3 gives Enrollment the required references student
    and course and the timestamp enrollmentDate, whose default is the
    time of the creation. *)
Definition enrollmentSchema : list (string * path) :=
  [ ("student", Path false (SObjectId User) true);
    ("course", Path false (SObjectId Course) true);
    ("enrollmentDate", Path false SDate false) ].

Definition schema (M : model) : list (string * path) :=
  match M with
  | User => userSchema
  | Course => courseSchema
  | Lesson => lessonSchema
  | Quiz => quizSchema
  | Submission => submissionSchema
  | Enrollment => enrollmentSchema
  end.

Definition paths (M : model) : list string := (schema M).*1.

(** The path of a schema with a given name. *)
Definition path_of (M : model) (k : string) : option path :=
  snd <$> List.find (λ kp, bool_decide (kp.1 = k)) (schema M).

(** ** Errors and JSON *)

(** Why a path fails the validation of a document: its [required]
    validator, or a value that did not cast to its type. *)
Inductive failure := Required | CastFailed.

#[global] Instance failure_eq_dec : EqDecision failure.
Proof. solve_decision. Defined.

(** What a Mongoose call can reject with: a document that fails the
    validation of its schema (with the paths that failed, here in the
    order of the schema), a value that does not cast to the type of its
    path, or an operation the server refuses. *)
Inductive error :=
| ValidationError (M : model) (failed : list (string * failure))
| CastError (p : string)
| MongoServerError (reason : string).

Inductive json :=
| JNull
| JStr (s : string)
| JNum (n : N)
| JArr (l : list json)
| JObj (o : gmap string json)
| JMessage (e : error).

Definition value_json (v : value) : json :=
  match v with
  | VStr s => JStr s
  | VList l => JArr (JStr <$> l)
  end.

Definition toJSON (d : doc) : gmap string json :=
  <["_id" := JStr (_id d)]> (<["__v" := JNum (__v d)]> (value_json <$> fields d)).

(** ** The database *)

Record DB := {
  users : list doc;
  courses : list doc;
  lessons : list doc;
  quizzes : list doc;
  submissions : list doc;
  enrollments : list doc
}.

Definition collection (M : model) (db : DB) : list doc :=
  match M with
  | User => users db
  | Course => courses db
  | Lesson => lessons db
  | Quiz => quizzes db
  | Submission => submissions db
  | Enrollment => enrollments db
  end.

Definition with_collection (M : model) (c : list doc) (db : DB) : DB :=
  match M with
  | User => {| users := c; courses := courses db; lessons := lessons db;
               quizzes := quizzes db; submissions := submissions db;
               enrollments := enrollments db |}
  | Course => {| users := users db; courses := c; lessons := lessons db;
                 quizzes := quizzes db; submissions := submissions db;
                 enrollments := enrollments db |}
  | Lesson => {| users := users db; courses := courses db; lessons := c;
                 quizzes := quizzes db; submissions := submissions db;
                 enrollments := enrollments db |}
  | Quiz => {| users := users db; courses := courses db; lessons := lessons db;
               quizzes := c; submissions := submissions db;
               enrollments := enrollments db |}
  | Submission => {| users := users db; courses := courses db;
                     lessons := lessons db; quizzes := quizzes db;
                     submissions := c; enrollments := enrollments db |}
  | Enrollment => {| users := users db; courses := courses db;
                     lessons := lessons db; quizzes := quizzes db;
                     submissions := submissions db; enrollments := c |}
  end.

(** ** Results and responses *)

(** The result of an awaited promise: resolved with a value, or rejected. *)
Inductive result (A : Type) :=
| Ok (a : A)
| Throw (e : error).
Arguments Ok {A} a.
Arguments Throw {A} e.

Record response := Response {
  status : nat;
  payload : json
}.

(** What becomes of a request: the handler sends a response, or its
    promise is rejected outside any [try] and the handler sends nothing. *)
Inductive outcome :=
| Sent (r : response)
| Unhandled (e : error).

(** The status of the response, when one is sent. *)
Definition status_of (o : outcome) : option nat :=
  match o with
  | Sent r => Some (status r)
  | Unhandled _ => None
  end.

(** [res.status(code).json(b)] and [res.json(b)]. *)
Definition res_status_json (code : nat) (b : json) : outcome :=
  Sent (Response code b).

Definition res_json (b : json) : outcome := res_status_json 200 b.

(** The object literals the handlers send; [error] is [err.message]. *)
Definition message_body (m : string) : json :=
  JObj {[ "message" := JStr m ]}.

Definition server_error_body (e : error) : json :=
  JObj (<["message" := JStr "Server error"]> {[ "error" := JMessage e ]}).

(** [null] for a missing document, the document's JSON otherwise. *)
Definition doc_json (o : option doc) : json :=
  match o with
  | Some d => JObj (toJSON d)
  | None => JNull
  end.

(** ** The casts of Mongoose

    Mongoose casts a value to the type of the path it is given to.  The
    casts are modelled on strings and arrays of strings.  Where the model
    is narrower than Mongoose it refuses: a timestamp is read in the one
    form [toISOString] writes, a version number as a numeral of at most
    15 decimal digits, and an array is not read as an identifier or a
    timestamp.  The properties below are stated on values the casts
    accept, or on values named one by one that they refuse. *)

Definition digit (c : ascii) : option N :=
  let n := N_of_ascii c in
  if (48 <=? n)%N && (n <=? 57)%N then Some (n - 48)%N else None.

Fixpoint decimal (acc : N) (s : string) : option N :=
  match s with
  | EmptyString => Some acc
  | String c s' =>
      match digit c with
      | Some n => decimal (10 * acc + n)%N s'
      | None => None
      end
  end.

(** The cast to Number, for the version key. *)
Definition castNumber (v : value) : option N :=
  match v with
  | VStr s =>
      if bool_decide (s ≠ "") && bool_decide (String.length s ≤ 15)%nat
      then decimal 0 s else None
  | VList _ => None
  end.

(** Two decimal digits that give a number from [lo] to [hi]. *)
Definition two_digits (lo hi : N) (a b : ascii) : bool :=
  match digit a, digit b with
  | Some x, Some y => (lo <=? 10 * x + y)%N && (10 * x + y <=? hi)%N
  | _, _ => false
  end.

(** A timestamp as [toISOString] writes it, [YYYY-MM-DDTHH:mm:ss.sssZ],
    on a day every month has. *)
Definition timestamp (s : string) : bool :=
  match list_ascii_of_string s with
  | [y1; y2; y3; y4; c1; m1; m2; c2; d1; d2; c3; h1; h2; c4; i1; i2; c5;
     s1; s2; c6; f1; f2; f3; c7] =>
      two_digits 0 99 y1 y2 && two_digits 0 99 y3 y4
      && Ascii.eqb c1 "-" && two_digits 1 12 m1 m2
      && Ascii.eqb c2 "-" && two_digits 1 28 d1 d2
      && Ascii.eqb c3 "T" && two_digits 0 23 h1 h2
      && Ascii.eqb c4 ":" && two_digits 0 59 i1 i2
      && Ascii.eqb c5 ":" && two_digits 0 59 s1 s2
      && Ascii.eqb c6 "." && two_digits 0 9 "0" f1 && two_digits 0 99 f2 f3
      && Ascii.eqb c7 "Z"
  | _ => false
  end.

(** The cast of a string to a type: the string as it is stored. *)
Definition cast_scalar (t : schematype) (s : string) : option string :=
  match t with
  | SString => Some s
  | SObjectId _ => toHexString <$> castObjectId s
  | SDate => if timestamp s then Some s else None
  end.

(** The cast of a value to a path.  A String path refuses an array; an
    array path takes an array element by element, and a value that is no
    array as the array of that one value. *)
Definition cast (p : path) (v : value) : option value :=
  match is_array p, v with
  | false, VStr s => VStr <$> cast_scalar (type p) s
  | false, VList _ => None
  | true, VList l => VList <$> mapM (cast_scalar (type p)) l
  | true, VStr s => (λ x, VList [x]) <$> cast_scalar (type p) s
  end.

(** The cast of [_id]. *)
Definition cast_id (v : value) : option ObjectId :=
  match v with
  | VStr s => castObjectId s
  | VList _ => None
  end.

(** ** The Mongoose operations the handlers call *)

(** The options object of an update: [{ new: true }] asks for the
    document as it is after the update, the default is the document as it
    was before. *)
Module Options.
Record t := Make { new : bool }.
End Options.

Module Model.

(** One condition of a query object: a plain value asks for equality,
    [{ $regex, $options }] for a match by the compiled expression; an
    array at a path that holds no array is cast to [{ $in }]. *)
Inductive cond :=
| CEq (v : value)
| CIn (l : list string)
| CRegex (matcher : string → bool).

Definition query := list (string * cond).

(** The cast of a condition to the type of its path. *)
Definition cast_cond (p : path) (c : cond) : option cond :=
  match c with
  | CEq (VStr s) => (λ x, CEq (VStr x)) <$> cast_scalar (type p) s
  | CEq (VList l) => CIn <$> mapM (cast_scalar (type p)) l
  | CIn l => CIn <$> mapM (cast_scalar (type p)) l
  | CRegex matcher => Some (CRegex matcher)
  end.

(** The cast of a query: a condition that does not cast rejects the
    query; a key that is no path of the schema is left as it is.  (No
    handler asks for an array path.) *)
Fixpoint cast_query (M : model) (q : query) : result query :=
  match q with
  | [] => Ok []
  | (k, c) :: q' =>
      match path_of M k with
      | Some p =>
          match cast_cond p c with
          | Some c' =>
              match cast_query M q' with
              | Ok r => Ok ((k, c') :: r)
              | Throw e => Throw e
              end
          | None => Throw (CastError k)
          end
      | None =>
          match cast_query M q' with
          | Ok r => Ok ((k, c) :: r)
          | Throw e => Throw e
          end
      end
  end.

Definition holds (c : cond) (v : option value) : bool :=
  match c, v with
  | CEq w, Some v => bool_decide (v = w)
  | CIn l, Some (VStr s) => bool_decide (s ∈ l)
  | CRegex matcher, Some (VStr s) => matcher s
  | _, _ => false
  end.

Definition matches (q : query) (d : doc) : bool :=
  forallb (λ kc, holds kc.2 (fields d !! kc.1)) q.

(** [Model.find(query)]: the documents that satisfy every condition, in
    the order of the collection. *)
Definition find (M : model) (q : query) (db : DB) : result (list doc) :=
  match cast_query M q with
  | Ok q' => Ok (List.filter (matches q') (collection M db))
  | Throw e => Throw e
  end.

(** [Model.findOne(query)]. *)
Definition findOne (M : model) (q : query) (db : DB) : result (option doc) :=
  match find M q db with
  | Ok l => Ok (head l)
  | Throw e => Throw e
  end.

Fixpoint lookup_id (i : ObjectId) (c : list doc) : option doc :=
  match c with
  | [] => None
  | d :: c' => if decide (_id d = i) then Some d else lookup_id i c'
  end.

(** [Model.findById(i)] for an identifier [i]: the lookup the store makes
    of a reference. *)
Definition findById (M : model) (i : ObjectId) (db : DB) : option doc :=
  lookup_id i (collection M db).

(** The fields an object gives a document: a key that is a path of the
    schema, with its value cast.  Strict mode, the default of a schema,
    drops the other keys. *)
Definition cast_fields (M : model) (o : gmap string value) : gmap string value :=
  map_imap (λ k v, path_of M k ≫= λ p, cast p v) o.

(** The paths of an object whose value does not cast: paths of the
    schema, then [_id] and [__v], which every schema has. *)
Definition cast_failures (M : model) (o : gmap string value) : list string :=
  List.filter
    (λ k, match o !! k with
          | Some v => negb (bool_decide (is_Some (path_of M k ≫= λ p, cast p v)))
          | None => false
          end)
    (paths M)
  ++ (if bool_decide (is_Some (o !! "_id") ∧ o !! "_id" ≫= cast_id = None)
      then ["_id"] else [])
  ++ (if bool_decide (is_Some (o !! "__v") ∧ o !! "__v" ≫= castNumber = None)
      then ["__v"] else []).

(** An array path is an empty array unless a value is given. *)
Definition defaults (M : model) : gmap string value :=
  list_to_map
    (omap (λ kp, if is_array kp.2 then Some (kp.1, VList []) else None)
          (schema M)).

(** A document under construction: the document a save would store, and
    the paths whose value did not cast. *)
Record document := Document {
  stored : doc;
  invalid : list string
}.

(** [new Model(obj)] with the generated identifier [oid] and the defaults
    [dflt] of the schema: an [_id] in the object takes the place of the
    generated one. *)
Definition new_with (dflt : gmap string value) (M : model) (oid : ObjectId)
    (o : gmap string value) : document :=
  {| stored := {| _id := default oid (o !! "_id" ≫= cast_id);
                  fields := cast_fields M o ∪ dflt;
                  __v := 0 |};
     invalid := cast_failures M o |}.

Definition new (M : model) (oid : ObjectId) (o : gmap string value) : document :=
  new_with (defaults M) M oid o.

(** The validation of a document: a path fails when its value did not
    cast, or when it is required and absent or the empty string. *)
Definition fails (x : document) (kp : string * path) : option (string * failure) :=
  if bool_decide (kp.1 ∈ invalid x) then Some (kp.1, CastFailed)
  else if required kp.2 && negb (truthy (fields (stored x) !! kp.1))
       then Some (kp.1, Required)
       else None.

Definition validate (M : model) (x : document) : list (string * failure) :=
  omap (fails x) (schema M)
  ++ ((λ k, (k, CastFailed)) <$>
        List.filter (λ k, bool_decide (k ∈ invalid x)) ["_id"; "__v"]).

(** [doc.save()] of a new document: validate, then insert; the server
    refuses a second document with an identifier of the collection. *)
Definition save (M : model) (x : document) (db : DB) : result DB :=
  match validate M x with
  | [] =>
      if bool_decide (_id (stored x) ∈ _id <$> collection M db)
      then Throw (MongoServerError "E11000 duplicate key error")
      else Ok (with_collection M (collection M db ++ [stored x]) db)
  | failed => Throw (ValidationError M failed)
  end.

(** An update object after the cast: a top-level key is a [$set] of that
    path. *)
Record update := Update {
  set_id : option ObjectId;
  set_fields : gmap string value;
  set_v : option N
}.

Definition castUpdate (M : model) (u : gmap string value) : result update :=
  match cast_failures M u with
  | [] => Ok {| set_id := u !! "_id" ≫= cast_id;
                set_fields := cast_fields M u;
                set_v := u !! "__v" ≫= castNumber |}
  | k :: _ => Throw (CastError k)
  end.

Definition apply_update (u : update) (d : doc) : doc :=
  {| _id := _id d;
     fields := set_fields u ∪ fields d;
     __v := default (__v d) (set_v u) |}.

(** The first document with identifier [i] is replaced by its image
    under [f]; the result has the document as it was. *)
Fixpoint update_id (i : ObjectId) (f : doc → doc) (c : list doc)
  : option doc * list doc :=
  match c with
  | [] => (None, [])
  | d :: c' =>
      if decide (_id d = i) then (Some d, f d :: c')
      else let r := update_id i f c' in (r.1, d :: r.2)
  end.

(** The server refuses an update that would give a document another
    [_id]. *)
Definition changes_id (u : update) (d : doc) : bool :=
  match set_id u with
  | Some j => bool_decide (j ≠ _id d)
  | None => false
  end.

(** [Model.findByIdAndUpdate(id, update, options)]: the identifier and
    the update are cast; the result is the document, before or after the
    update as the options ask, or [null] when no document has the
    identifier. *)
Definition findByIdAndUpdate (M : model) (id : string)
    (u : gmap string value) (options : Options.t) (db : DB)
  : result (option doc * DB) :=
  match castObjectId id with
  | None => Throw (CastError "_id")
  | Some i =>
      match castUpdate M u with
      | Throw e => Throw e
      | Ok u =>
          let r := update_id i (apply_update u) (collection M db) in
          match r.1 with
          | Some d =>
              if changes_id u d
              then Throw (MongoServerError "update of the immutable field _id")
              else Ok (Some (if Options.new options then apply_update u d else d),
                       with_collection M r.2 db)
          | None => Ok (None, db)
          end
      end
  end.

Fixpoint delete_id (i : ObjectId) (c : list doc) : option doc * list doc :=
  match c with
  | [] => (None, [])
  | d :: c' =>
      if decide (_id d = i) then (Some d, c')
      else let r := delete_id i c' in (r.1, d :: r.2)
  end.

(** [Model.findByIdAndDelete(id)]: the deleted document, or [null]. *)
Definition findByIdAndDelete (M : model) (id : string) (db : DB)
  : result (option doc * DB) :=
  match castObjectId id with
  | None => Throw (CastError "_id")
  | Some i =>
      let r := delete_id i (collection M db) in
      Ok (r.1, with_collection M r.2 db)
  end.

(** The document a stored reference names. *)
Definition dereference (M : model) (db : DB) (s : string) : option doc :=
  castObjectId s ≫= λ i, findById M i db.

(** The value of a populated path: the referenced document for a single
    reference ([null] when it is gone), the documents that still exist
    for an array of references. *)
Definition expand (M : model) (db : DB) (v : value) : json :=
  match v with
  | VStr s => doc_json (dereference M db s)
  | VList l => JArr (omap (λ s, JObj ∘ toJSON <$> dereference M db s) l)
  end.

(** [.populate(p)] on a document being rendered. *)
Definition populate (M : model) (p : string) (db : DB) (d : doc)
    (o : gmap string json) : gmap string json :=
  match path_of M p ≫= ref with
  | Some R =>
      match fields d !! p with
      | Some v => <[p := expand R db v]> o
      | None => o
      end
  | None => o
  end.

(** [.select('-__v')]. *)
Definition select_minus (p : string) (o : gmap string json) : gmap string json :=
  delete p o.

End Model.

(** ** Building blocks of the handlers *)

(** An object literal [{ k1: e1, k2: e2, ... }]: a key whose expression is
    [undefined] carries no value. *)
Definition object_literal (kvs : list (string * option value)) : gmap string value :=
  list_to_map (omap (λ kv, pair kv.1 <$> kv.2) kvs).

(** [if (x) query.k = x] on the query object built so far. *)
Definition assign_if (k : string) (x : option string) (query : Model.query)
  : Model.query :=
  match x with
  | Some s => if truthy_param x then (query ++ [(k, Model.CEq (VStr s))]) else query
  | None => query
  end.

(** A document of model [M] as it is sent after [.populate(p)] for each
    [p] of [ps]. *)
Definition render (M : model) (ps : list string) (db : DB) (d : doc) : json :=
  JObj (foldl (λ o p, Model.populate M p db d o) (toJSON d) ps).

(** ** routes/users.js *)

(** The create from its second await on, when [findOne] has resolved
    with [null]: the user is built and saved in the database as it is by
    then. *)
Definition users_post_save (oid : ObjectId) (body : gmap string value) (db : DB)
  : outcome * DB :=
  let user :=
    Model.new User oid
      (object_literal [ ("name", body !! "name");
                        ("email", body !! "email");
                        ("role", body !! "role") ]) in
  match Model.save User user db with
  | Ok db' => (res_status_json 201 (JObj (toJSON (Model.stored user))), db')
  | Throw err => (res_status_json 500 (server_error_body err), db)
  end.

Definition users_post (oid : ObjectId) (body : gmap string value) (db : DB)
  : outcome * DB :=
  if negb (truthy (body !! "name")) || negb (truthy (body !! "email"))
     || negb (truthy (body !! "role"))
  then (res_status_json 400 (message_body "Missing required fields"), db)
  else
    match Model.findOne User
            (from_option (λ e, [("email", Model.CEq e)]) [] (body !! "email")) db
    with
    | Ok (Some _) => (res_status_json 400 (message_body "User already exists"), db)
    | Ok None => users_post_save oid body db
    | Throw err => (res_status_json 500 (server_error_body err), db)
    end.

Definition users_get (db : DB) : outcome * DB :=
  match Model.find User [] db with
  | Ok users =>
      (res_json (JArr ((λ d, JObj (Model.select_minus "__v" (toJSON d))) <$> users)),
       db)
  | Throw _ => (res_status_json 500 (message_body "Server error"), db)
  end.

(** ** routes/lessons.js *)

Definition lessons_post (oid : ObjectId) (body : gmap string value) (db : DB)
  : outcome * DB :=
  let lesson := Model.new Lesson oid body in
  match Model.save Lesson lesson db with
  | Ok db' => (res_status_json 201 (JObj (toJSON (Model.stored lesson))), db')
  | Throw err => (Unhandled err, db)
  end.

Definition lessons_get (q : gmap string string) (db : DB) : outcome * DB :=
  let course := q !! "course" in
  let query := assign_if "course" course [] in
  match Model.find Lesson query db with
  | Ok lessons => (res_json (JArr (render Lesson ["course"] db <$> lessons)), db)
  | Throw err => (Unhandled err, db)
  end.

Definition lessons_put (id : string) (body : gmap string value) (db : DB)
  : outcome * DB :=
  match Model.findByIdAndUpdate Lesson id body {| Options.new := true |} db with
  | Ok (lesson, db') => (res_json (doc_json lesson), db')
  | Throw err => (Unhandled err, db)
  end.

Definition lessons_delete (id : string) (db : DB) : outcome * DB :=
  match Model.findByIdAndDelete Lesson id db with
  | Ok (_, db') => (res_json (message_body "Lesson deleted"), db')
  | Throw err => (Unhandled err, db)
  end.

(** ** routes/quizzes.js *)

Definition quizzes_post (oid : ObjectId) (body : gmap string value) (db : DB)
  : outcome * DB :=
  let quiz := Model.new Quiz oid body in
  match Model.save Quiz quiz db with
  | Ok db' => (res_status_json 201 (JObj (toJSON (Model.stored quiz))), db')
  | Throw err => (res_status_json 500 (server_error_body err), db)
  end.

Definition quizzes_get (q : gmap string string) (db : DB) : outcome * DB :=
  let lesson := q !! "lesson" in
  let query := assign_if "lesson" lesson [] in
  match Model.find Quiz query db with
  | Ok quizzes => (res_json (JArr (render Quiz ["lesson"] db <$> quizzes)), db)
  | Throw _ => (res_status_json 500 (message_body "Server error"), db)
  end.

Definition quizzes_put (id : string) (body : gmap string value) (db : DB)
  : outcome * DB :=
  match Model.findByIdAndUpdate Quiz id body {| Options.new := true |} db with
  | Ok (None, db') => (res_status_json 404 (message_body "Quiz not found"), db')
  | Ok (Some quiz, db') => (res_json (JObj (toJSON quiz)), db')
  | Throw err => (res_status_json 500 (server_error_body err), db)
  end.

Definition quizzes_delete (id : string) (db : DB) : outcome * DB :=
  match Model.findByIdAndDelete Quiz id db with
  | Ok (None, db') => (res_status_json 404 (message_body "Quiz not found"), db')
  | Ok (Some _, db') => (res_json (message_body "Quiz deleted"), db')
  | Throw err => (res_status_json 500 (server_error_body err), db)
  end.

(** ** routes/submissions.js *)

Definition submissions_post (oid : ObjectId) (body : gmap string value) (db : DB)
  : outcome * DB :=
  let submission := Model.new Submission oid body in
  match Model.save Submission submission db with
  | Ok db' => (res_status_json 201 (JObj (toJSON (Model.stored submission))), db')
  | Throw err => (Unhandled err, db)
  end.

Definition submissions_get (q : gmap string string) (db : DB) : outcome * DB :=
  let student := q !! "student" in
  let quiz := q !! "quiz" in
  let query := assign_if "quiz" quiz (assign_if "student" student []) in
  match Model.find Submission query db with
  | Ok submissions =>
      (res_json (JArr (render Submission ["student"; "quiz"] db <$> submissions)), db)
  | Throw err => (Unhandled err, db)
  end.

Definition submissions_put (id : string) (body : gmap string value) (db : DB)
  : outcome * DB :=
  match Model.findByIdAndUpdate Submission id body {| Options.new := true |} db with
  | Ok (submission, db') => (res_json (doc_json submission), db')
  | Throw err => (Unhandled err, db)
  end.

Definition submissions_delete (id : string) (db : DB) : outcome * DB :=
  match Model.findByIdAndDelete Submission id db with
  | Ok (_, db') => (res_json (message_body "Submission deleted"), db')
  | Throw err => (Unhandled err, db)
  end.

(** ** routes/courses.js *)

(** The server's regular-expression engine: a pattern and its options
    compile to a search of a subject string, or are refused. *)
Definition engine := string → string → option (string → bool).

(** [if (title) query.title = { $regex: title, $options: 'i' }]; the
    query is rejected when the server refuses the expression.  The server
    compiles the expression when the query runs; the model compiles it
    where the condition is built, which the handler cannot tell apart. *)
Definition assign_regex_if (regex : engine) (k : string) (x : option string)
    (options : string) (query : Model.query) : result Model.query :=
  match x with
  | Some s =>
      if truthy_param x then
        match regex s options with
        | Some matcher => Ok (query ++ [(k, Model.CRegex matcher)])
        | None => Throw (MongoServerError "Regular expression is invalid")
        end
      else Ok query
  | None => Ok query
  end.

Definition courses_post (oid : ObjectId) (body : gmap string value) (db : DB)
  : outcome * DB :=
  let course := Model.new Course oid body in
  match Model.save Course course db with
  | Ok db' => (res_status_json 201 (JObj (toJSON (Model.stored course))), db')
  | Throw err => (Unhandled err, db)
  end.

Definition courses_get (regex : engine) (q : gmap string string) (db : DB)
  : outcome * DB :=
  let title := q !! "title" in
  let instructor := q !! "instructor" in
  match assign_regex_if regex "title" title "i" [] with
  | Throw err => (Unhandled err, db)
  | Ok query =>
      let query := assign_if "instructor" instructor query in
      match Model.find Course query db with
      | Ok courses =>
          (res_json (JArr (render Course ["instructor"; "lessons"] db <$> courses)),
           db)
      | Throw err => (Unhandled err, db)
      end
  end.

Definition courses_put (id : string) (body : gmap string value) (db : DB)
  : outcome * DB :=
  match Model.findByIdAndUpdate Course id body {| Options.new := true |} db with
  | Ok (course, db') => (res_json (doc_json course), db')
  | Throw err => (Unhandled err, db)
  end.

Definition courses_delete (id : string) (db : DB) : outcome * DB :=
  match Model.findByIdAndDelete Course id db with
  | Ok (_, db') => (res_json (message_body "Course deleted"), db')
  | Throw err => (Unhandled err, db)
  end.

(** ** routes/enrollments.js *)

(** The create, at the time [now]: the default of enrollmentDate. *)
Definition enrollments_post (oid : ObjectId) (now : string)
    (body : gmap string value) (db : DB) : outcome * DB :=
  let enrollment :=
    Model.new_with (<["enrollmentDate" := VStr now]> (Model.defaults Enrollment))
      Enrollment oid body in
  match Model.save Enrollment enrollment db with
  | Ok db' => (res_status_json 201 (JObj (toJSON (Model.stored enrollment))), db')
  | Throw err => (Unhandled err, db)
  end.

Definition enrollments_get (q : gmap string string) (db : DB) : outcome * DB :=
  let student := q !! "student" in
  let course := q !! "course" in
  let query := assign_if "course" course (assign_if "student" student []) in
  match Model.find Enrollment query db with
  | Ok enrollments =>
      (res_json (JArr (render Enrollment ["student"; "course"] db <$> enrollments)),
       db)
  | Throw err => (Unhandled err, db)
  end.

Definition enrollments_put (id : string) (body : gmap string value) (db : DB)
  : outcome * DB :=
  match Model.findByIdAndUpdate Enrollment id body {| Options.new := true |} db with
  | Ok (enrollment, db') => (res_json (doc_json enrollment), db')
  | Throw err => (Unhandled err, db)
  end.

Definition enrollments_delete (id : string) (db : DB) : outcome * DB :=
  match Model.findByIdAndDelete Enrollment id db with
  | Ok (_, db') => (res_json (message_body "Enrollment deleted"), db')
  | Throw err => (Unhandled err, db)
  end.

(** ** server.js: the route table *)

Inductive router :=
| userRoutes | courseRoutes | lessonRoutes
| enrollmentRoutes | quizRoutes | submissionRoutes.

#[global] Instance router_eq_dec : EqDecision router.
Proof. solve_decision. Defined.

(** The module each router is required from, [./routes/<name>]. *)
Definition routes_module (r : router) : string :=
  match r with
  | userRoutes => "users"
  | courseRoutes => "courses"
  | lessonRoutes => "lessons"
  | enrollmentRoutes => "enrollments"
  | quizRoutes => "quizzes"
  | submissionRoutes => "submissions"
  end.

(** The [app.use(prefix, router)] calls, in order. *)
Definition app_use : list (string * router) :=
  [ ("/api/users", userRoutes);
    ("/api/courses", courseRoutes);
    ("/api/lessons", lessonRoutes);
    ("/api/enrollments", enrollmentRoutes);
    ("/api/quizzes", quizRoutes);
    ("/api/submissions", submissionRoutes) ].

(** The prefixes a router is mounted at. *)
Definition mounted_at (r : router) : list string :=
  (List.filter (λ pr, bool_decide (pr.2 = r)) app_use).*1.


(** ** Text search, for the title filter of the course list *)

Fixpoint is_substring (p s : string) : bool :=
  String.prefix p s ||
  match s with
  | EmptyString => false
  | String _ s' => is_substring p s'
  end.

(** [s] contains [p], letter case ignored. *)
Definition contains_ci (p s : string) : bool :=
  is_substring (lower p) (lower s).

(** The characters a regular expression gives a meaning of their own. *)
Definition metacharacters : list ascii :=
  list_ascii_of_string "\^$.|?*+()[]{}".

(** A pattern of ASCII characters none of which is a metacharacter. *)
Definition plain (p : string) : bool :=
  forallb (λ c, (nat_of_ascii c <? 128)%nat && bool_decide (c ∉ metacharacters))
          (list_ascii_of_string p).

Definition newline : ascii := "010"%char.

(** [s] has a character other than a line feed. *)
Definition has_char (s : string) : bool :=
  existsb (λ c, negb (Ascii.eqb c newline)) (list_ascii_of_string s).

(** [s] is ASCII text. *)
Definition ascii_text (s : string) : bool :=
  forallb (λ c, (nat_of_ascii c <? 128)%nat) (list_ascii_of_string s).

(** [s] has a printable ASCII character. *)
Definition has_printable (s : string) : bool :=
  existsb (λ c, (32 <=? nat_of_ascii c)%nat && (nat_of_ascii c <? 127)%nat)
          (list_ascii_of_string s).

(** What the properties below assume of the engine, each where it says
    so.  A pattern without metacharacters, compiled with option [i],
    searches an ASCII subject for the pattern as a substring, letter case
    ignored. *)
Definition plain_is_substring_search (regex : engine) : Prop :=
  ∀ p, plain p = true →
    ∃ matcher, regex p "i" = Some matcher ∧
               ∀ s, ascii_text s = true → matcher s = contains_ci p s.

(** The pattern [.] matches any one character that is not a line
    terminator, so its search succeeds on every subject that has a
    printable character. *)
Definition dot_is_wildcard (regex : engine) : Prop :=
  ∃ matcher, regex "." "i" = Some matcher ∧
             ∀ s, has_printable s = true → matcher s = true.

(** An engine with both properties, for the patterns [plain] accepts and
    for [.] alone; it refuses every other pattern. *)
Definition small_engine : engine :=
  λ p options,
    if bool_decide (options = "i") then
      if plain p then Some (contains_ci p)
      else if bool_decide (p = ".") then Some has_char
      else None
    else None.


(** ** The statements of the filter properties *)

(** The reference in path [k] of [d] is the identifier [s]. *)
Definition ref_is (k : string) (s : string) (d : doc) : bool :=
  bool_decide (fields d !! k = Some (VStr s)).

(** A criterion as the handlers take it: one that is omitted or empty
    asks nothing. *)
Definition criterion (k : string) (x : option string) (d : doc) : bool :=
  match x with
  | Some s => if bool_decide (s = "") then true else ref_is k s d
  | None => true
  end.


(** A criterion that is omitted, empty, or the text of an identifier. *)
Definition identifier_or_empty (x : option string) : bool :=
  match x with
  | Some s => bool_decide (s = "") || hexadecimal s
  | None => true
  end.

(** The title of [d] is a string the compiled expression matches. *)
Definition title_matches (matcher : string → bool) (d : doc) : bool :=
  match fields d !! "title" with
  | Some (VStr s) => matcher s
  | _ => false
  end.

(** The response of a list request: status 200 and the documents [l],
    each rendered with the paths [ps] populated. *)
Definition listed (M : model) (ps : list string) (db : DB) (l : list doc)
  : outcome * DB :=
  (res_json (JArr (render M ps db <$> l)), db).


(** The title of [d] contains [t], letter case ignored. *)
Definition title_contains (t : string) (d : doc) : bool :=
  title_matches (contains_ci t) d.

(** The titles of the stored courses are ASCII text. *)
Definition ascii_titles (db : DB) : Prop :=
  ∀ d s, d ∈ courses db → fields d !! "title" = Some (VStr s) →
         ascii_text s = true.


(** ** The statements of the create and update properties *)

(** A required field of a request body is missing: absent, or empty. *)
Definition missing (body : gmap string value) (k : string) : Prop :=
  truthy (body !! k) = false.


(** The document [users_post] builds from a body: [new User({ name, email,
    role })] with the generated identifier. *)
Definition new_user (oid : ObjectId) (body : gmap string value) : doc :=
  Model.stored
    (Model.new User oid
       (object_literal [ ("name", body !! "name");
                         ("email", body !! "email");
                         ("role", body !! "role") ])).


(** A value of the type of a path, as the store keeps it: a string at a
    path of strings, the text of an identifier at a reference, a
    timestamp at a date, an array of such at an array path. *)
Definition accepts (p : path) (v : value) : bool :=
  let fits s := match type p with
                | SString => true
                | SObjectId _ => hexadecimal s
                | SDate => timestamp s
                end in
  match is_array p, v with
  | false, VStr s => fits s
  | true, VList l => forallb fits l
  | _, _ => false
  end.

(** A key that is the name of a field: not empty, and with neither a
    [.], which makes a path into a value, nor a [$], which makes an
    operator of an update. *)
Definition field_name (k : string) : bool :=
  negb (bool_decide (k = ""))
  && forallb (λ c, negb (Ascii.eqb c ".") && negb (Ascii.eqb c "$"))
       (list_ascii_of_string k).


(** A body of the types of the schema: its keys are names of fields,
    neither [_id] nor [__v] among them, and every path of the schema it
    names has a value of its type. *)
Definition well_typed (M : model) (body : gmap string value) : bool :=
  bool_decide (map_Forall (λ k _, field_name k = true) body)
  && (bool_decide (body !! "_id" = None) && bool_decide (body !! "__v" = None)
      && forallb (λ kp, from_option (accepts kp.2) true (body !! kp.1)) (schema M)).


(** The identifiers of a collection, in order. *)
Definition ids (M : model) (db : DB) : list ObjectId := _id <$> collection M db.

(** No two documents of a collection share an identifier. *)
Definition unique_ids (db : DB) : Prop := ∀ M, NoDup (ids M db).

(** No document of the collection has the identifier yet. *)
Definition fresh (oid : ObjectId) (M : model) (db : DB) : Prop := oid ∉ ids M db.



(** The prefix the pattern [/api/<plural-entity-name>] gives a router. *)
Definition api_prefix (r : router) : string := "/api/" +:+ routes_module r.

(** The route table as the claim reads to the letter: the enrollment
    router at [/enrollments], every other router under [/api]. *)
Definition enrollments_outside_api : Prop :=
  mounted_at enrollmentRoutes = ["/enrollments"] ∧
  ∀ r, r ≠ enrollmentRoutes → mounted_at r = [api_prefix r].

(** ** Sample data *)

Definition u1 : ObjectId := HexString "64b100000000000000000001" I.
Definition u2 : ObjectId := HexString "64b100000000000000000002" I.
Definition c1 : ObjectId := HexString "64b200000000000000000001" I.
Definition c2 : ObjectId := HexString "64b200000000000000000002" I.
Definition l1 : ObjectId := HexString "64b300000000000000000001" I.
Definition l2 : ObjectId := HexString "64b300000000000000000002" I.
Definition q1 : ObjectId := HexString "64b400000000000000000001" I.
Definition q2 : ObjectId := HexString "64b400000000000000000002" I.
Definition s1 : ObjectId := HexString "64b500000000000000000001" I.
Definition s2 : ObjectId := HexString "64b500000000000000000002" I.
Definition e1 : ObjectId := HexString "64b600000000000000000001" I.
Definition e2 : ObjectId := HexString "64b600000000000000000002" I.


Definition empty_db : DB :=
  {| users := []; courses := []; lessons := []; quizzes := [];
     submissions := []; enrollments := [] |}.

Definition john : doc :=
  Doc u1
      (<["name" := VStr "John Doe"]>
       (<["email" := VStr "john@example.com"]>
        {[ "role" := VStr "student" ]}))
      0.

Definition node_course : doc :=
  Doc c1
      (<["title" := VStr "Introduction to Node.js"]>
       (<["instructor" := VStr u1]> {[ "lessons" := VList [l1 : string] ]}))
      0.

Definition advanced_course : doc :=
  Doc c2
      (<["title" := VStr "Advanced Topics"]>
       (<["instructor" := VStr u1]> {[ "lessons" := VList [] ]}))
      0.

Definition express_lesson : doc :=
  Doc l1
      (<["title" := VStr "Introduction to Express"]>
       {[ "course" := VStr c1 ]})
      0.

Definition node_quiz : doc :=
  Doc q1
      (<["question" := VStr "What is Node.js?"]>
       (<["options" := VList ["A JavaScript runtime"; "A database"]]>
        (<["answer" := VStr "A JavaScript runtime"]>
         {[ "lesson" := VStr l1 ]})))
      0.

Definition john_submission : doc :=
  Doc s1
      (<["student" := VStr u1]>
       (<["quiz" := VStr q1]> {[ "answer" := VStr "A JavaScript runtime" ]}))
      0.

Definition john_enrollment : doc :=
  Doc e1
      (<["student" := VStr u1]>
       (<["course" := VStr c1]>
        {[ "enrollmentDate" := VStr "2023-06-01T00:00:00.000Z" ]}))
      0.

Definition sample_db : DB :=
  {| users := [john];
     courses := [node_course; advanced_course];
     lessons := [express_lesson];
     quizzes := [node_quiz];
     submissions := [john_submission];
     enrollments := [john_enrollment] |}.

Definition john_body : gmap string value :=
  <["name" := VStr "John Doe"]>
  (<["email" := VStr "john@example.com"]> {[ "role" := VStr "student" ]}).

Definition jane_body : gmap string value :=
  <["name" := VStr "Jane Roe"]>
  (<["email" := VStr "jane@example.com"]> {[ "role" := VStr "instructor" ]}).

(** ** The statements of the further properties *)

(** The document after the update by a body of the types of the schema:
    the paths the body names are set to its values. *)
Definition patch (M : model) (body : gmap string value) (d : doc) : doc :=
  Model.apply_update
    {| Model.set_id := None;
       Model.set_fields := Model.cast_fields M body;
       Model.set_v := None |} d.

(** A collection without the documents of identifier [i]. *)
Definition without_id (i : ObjectId) (c : list doc) : list doc :=
  List.filter (λ d, bool_decide (_id d ≠ i)) c.


(** The database after an update request, whatever the request. *)
Definition updated_or_not (M : model)
    (put : string → gmap string value → DB → outcome * DB)
    (s : string) (body : gmap string value) (db : DB) : Prop :=
  (put s body db).2 = db ∨
  ∃ i up, castObjectId s = Some i ∧ Model.castUpdate M body = Ok up ∧
          (put s body db).2
            = with_collection M
                (Model.update_id i (Model.apply_update up) (collection M db)).2 db.


(** Every required path of the schema has a value in the body that is not
    empty. *)
Definition complete (M : model) (body : gmap string value) : bool :=
  forallb (λ kp, negb (required kp.2) || truthy (body !! kp.1)) (schema M).


(** [post] creates a document of model [M] from a body of the types of
    the schema that has every required path, under a generated
    identifier that is new: the response is 201 with the new document,
    which is added at the end of the collection and has the generated
    identifier, the version 0 and the values of the body at the paths of
    the schema; no other collection changes. *)
Definition creates_document (M : model)
    (post : ObjectId → gmap string value → DB → outcome * DB) : Prop :=
  ∀ oid body db,
    well_typed M body = true → complete M body = true → fresh oid M db →
    ∃ d,
      (post oid body db).1 = res_status_json 201 (JObj (toJSON d)) ∧
      collection M (post oid body db).2 = collection M db ++ [d] ∧
      (∀ N, N ≠ M → collection N (post oid body db).2 = collection N db) ∧
      _id d = oid ∧ __v d = 0%N ∧
      (∀ k v, k ∈ paths M → body !! k = Some v →
              fields d !! k = Some v ∧ toJSON d !! k = Some (value_json v)) ∧
      (∀ k, k ∉ paths M → fields d !! k = None) ∧
      toJSON d !! "_id" = Some (JStr oid).

(** [post] rejects a body in which a required path is missing: the
    validation fails, the outcome is what [answer] makes of the error and
    the database is unchanged. *)
Definition rejects_incomplete (M : model) (answer : error → outcome)
    (post : ObjectId → gmap string value → DB → outcome * DB) : Prop :=
  ∀ oid body db,
    complete M body = false →
    ∃ failed, failed ≠ [] ∧
      post oid body db = (answer (ValidationError M failed), db).

(** [post] rejects a body that gives an array to a path of strings. *)
Definition rejects_array (M : model) (answer : error → outcome)
    (post : ObjectId → gmap string value → DB → outcome * DB) : Prop :=
  ∀ oid body db k req l,
    path_of M k = Some (Path false SString req) → body !! k = Some (VList l) →
    ∃ failed, (k, CastFailed) ∈ failed ∧
      post oid body db = (answer (ValidationError M failed), db).

(** The emails of the stored users, in order. *)
Definition emails (db : DB) : list value :=
  omap (λ u, fields u !! "email") (users db).

(** [put] changes nothing but the document of model [M] it is given the
    identifier of: the other collections, the other documents of the
    collection and the identifiers, in their order, stay as they are. *)
Definition touches_one_document (M : model)
    (put : string → gmap string value → DB → outcome * DB) : Prop :=
  ∀ (id : ObjectId) body db,
    (∀ N, N ≠ M → collection N (put id body db).2 = collection N db) ∧
    (∀ j, j ≠ id → Model.findById M j (put id body db).2 = Model.findById M j db) ∧
    ids M (put id body db).2 = ids M db.


(** [del] removes the document of model [M] with the identifier, and that
    document only, when identifiers are unique. *)
Definition removes_one_document (M : model)
    (del : string → DB → outcome * DB) : Prop :=
  ∀ (id : ObjectId) db,
    unique_ids db →
    collection M (del id db).2 = without_id id (collection M db) ∧
    Model.findById M id (del id db).2 = None ∧
    (∀ j, j ≠ id → Model.findById M j (del id db).2 = Model.findById M j db) ∧
    (∀ N, N ≠ M → collection N (del id db).2 = collection N db).


(** The identifiers of the documents in the response of a list request. *)
Definition listed_ids (o : outcome) : list json :=
  match o with
  | Sent (Response _ (JArr l)) =>
      omap (λ j, match j with JObj m => m !! "_id" | _ => None end) l
  | _ => []
  end.


(** * Properties *)

(** ** The database record *)

Lemma collection_with_collection M c db :
  collection M (with_collection M c db) = c.
Proof. by destruct M. Qed.

Lemma with_collection_id M db :
  with_collection M (collection M db) db = db.
Proof. by destruct M, db. Qed.

Lemma collection_with_collection_ne M N c db :
  M ≠ N → collection N (with_collection M c db) = collection N db.
Proof. by destruct M, N. Qed.

Lemma with_collection_twice M c c' db :
  with_collection M c (with_collection M c' db) = with_collection M c db.
Proof. by destruct M. Qed.

(** ** Identifiers and their cast *)

Lemma ObjectId_eq (i j : ObjectId) : toHexString i = toHexString j → i = j.
Proof.
  destruct i as [s Hs], j as [t Ht]. cbn. intros ->.
  f_equal. apply proof_irrel.
Qed.

Lemma to_lower_hex_digit c : hex_digit c = true → to_lower c = c.
Proof.
  destruct c as [[] [] [] [] [] [] [] []]; vm_compute; intros H;
    first [reflexivity | discriminate H].
Qed.

Lemma lower_hex_digits s :
  forallb hex_digit (list_ascii_of_string s) = true → lower s = s.
Proof.
  induction s as [|c s IH]; cbn [list_ascii_of_string forallb lower]; [done|].
  intros [Hc Hs]%andb_true_iff. by rewrite (to_lower_hex_digit c Hc), IH.
Qed.

Lemma lower_hexadecimal s : hexadecimal s = true → lower s = s.
Proof.
  unfold hexadecimal. intros [_ H]%andb_true_iff. by apply lower_hex_digits.
Qed.

(** The text of an identifier casts to that identifier. *)
Lemma castObjectId_toHexString (i : ObjectId) : castObjectId i = Some i.
Proof.
  destruct i as [s Hs]. unfold castObjectId. cbn [toHexString].
  pose proof (lower_hexadecimal s (Is_true_true_1 _ Hs)) as Hlow.
  destruct (decide _) as [H|H].
  - f_equal. apply ObjectId_eq. exact Hlow.
  - rewrite Hlow in H. contradiction.
Qed.

Lemma castObjectId_hexadecimal s :
  hexadecimal s = true → toHexString <$> castObjectId s = Some s.
Proof.
  intros Hs. unfold castObjectId.
  pose proof (lower_hexadecimal s Hs) as Hlow.
  destruct (decide _) as [H|H]; cbn.
  - by rewrite Hlow.
  - rewrite Hlow in H. by apply Is_true_true_2 in Hs.
Qed.

Lemma castObjectId_lower s i : castObjectId s = Some i → toHexString i = lower s.
Proof.
  unfold castObjectId. destruct (decide _); [|discriminate].
  by intros [= <-].
Qed.

(** ** Lookup, update and deletion by identifier *)

Section by_id.
Import Model.

Lemma update_id_absent i f c :
  lookup_id i c = None → update_id i f c = (None, c).
Proof.
  induction c as [|d c IH]; simpl; [done|].
  case_decide; [done|]. intros Hc. by rewrite (IH Hc).
Qed.


Lemma update_id_present i f c d :
  lookup_id i c = Some d → (update_id i f c).1 = Some d.
Proof.
  induction c as [|e c IH]; simpl; [done|].
  case_decide; simpl; [congruence | done].
Qed.

Lemma update_id_found i f c : (update_id i f c).1 = lookup_id i c.
Proof.
  induction c as [|e c IH]; simpl; [done|]. case_decide; simpl; done.
Qed.

Lemma delete_id_found i c : (delete_id i c).1 = lookup_id i c.
Proof.
  induction c as [|e c IH]; simpl; [done|]. case_decide; simpl; done.
Qed.


Lemma delete_id_present i c d :
  lookup_id i c = Some d → (delete_id i c).1 = Some d.
Proof.
  induction c as [|e c IH]; simpl; [done|].
  case_decide; simpl; [congruence | done].
Qed.

Lemma lookup_id_None i c : lookup_id i c = None ↔ i ∉ _id <$> c.
Proof.
  induction c as [|d c IH]; cbn [lookup_id fmap list_fmap].
  - split; [intros _; apply not_elem_of_nil | done].
  - rewrite not_elem_of_cons. case_decide as Hd.
    + split; [done|]. intros [Hne _]. congruence.
    + rewrite IH. split; [intros H; split; [congruence|exact H] | by intros [_ H]].
Qed.


Lemma update_id_ids i f c :
  (∀ e, _id (f e) = _id e) → _id <$> (update_id i f c).2 = _id <$> c.
Proof.
  intros Hf. induction c as [|d c IH]; cbn [update_id]; [done|].
  case_decide; cbn [snd fmap list_fmap]; [by rewrite Hf|].
  f_equal. exact IH.
Qed.

Lemma update_id_lookup_ne i j f c :
  (∀ e, _id (f e) = _id e) → j ≠ i →
  lookup_id j (update_id i f c).2 = lookup_id j c.
Proof.
  intros Hf Hne. induction c as [|d c IH]; cbn [update_id]; [done|].
  case_decide as Hd; cbn [snd lookup_id].
  - rewrite Hf. rewrite !decide_False by congruence. reflexivity.
  - case_decide; [reflexivity | exact IH].
Qed.



Lemma without_id_absent i c : i ∉ _id <$> c → without_id i c = c.
Proof.
  unfold without_id. induction c as [|d c IH]; cbn [List.filter fmap list_fmap];
    [done|].
  rewrite not_elem_of_cons. intros [Hne Hi].
  rewrite bool_decide_eq_true_2 by congruence. by rewrite IH.
Qed.

Lemma delete_id_without i c :
  NoDup (_id <$> c) → (delete_id i c).2 = without_id i c.
Proof.
  unfold without_id.
  induction c as [|d c IH]; cbn [delete_id List.filter fmap list_fmap]; [done|].
  rewrite NoDup_cons. intros [Hd Hc]. case_decide as Hi; cbn [snd].
  - rewrite bool_decide_eq_false_2 by (intros H; by apply H).
    subst i. symmetry. by apply without_id_absent.
  - rewrite bool_decide_eq_true_2 by exact Hi. f_equal. by apply IH.
Qed.

Lemma without_id_elem i c d : d ∈ without_id i c ↔ d ∈ c ∧ _id d ≠ i.
Proof.
  unfold without_id. rewrite !list_elem_of_In, filter_In.
  by rewrite bool_decide_eq_true.
Qed.

Lemma lookup_id_without i c : lookup_id i (without_id i c) = None.
Proof.
  apply lookup_id_None. intros (d & Hid & Hd%without_id_elem)%list_elem_of_fmap_1.
  destruct Hd as [_ Hne]. by apply Hne.
Qed.

Lemma lookup_id_without_ne i j c :
  j ≠ i → lookup_id j (without_id i c) = lookup_id j c.
Proof.
  intros Hne. unfold without_id.
  induction c as [|d c IH]; cbn [List.filter lookup_id]; [done|].
  destruct (decide (_id d = i)) as [Hd|Hd].
  - rewrite bool_decide_eq_false_2 by (intros H; by apply H).
    rewrite decide_False by congruence. exact IH.
  - rewrite bool_decide_eq_true_2 by exact Hd. cbn [lookup_id].
    case_decide; [reflexivity | exact IH].
Qed.

Lemma without_id_NoDup i c : NoDup (_id <$> c) → NoDup (_id <$> without_id i c).
Proof.
  induction c as [|d c IH]; [done|].
  cbn [fmap list_fmap]. rewrite NoDup_cons. intros [Hd Hc].
  unfold without_id. cbn [List.filter]. fold (without_id i c).
  destruct (bool_decide (_id d ≠ i)); [|by apply IH].
  cbn [fmap list_fmap]. apply NoDup_cons. split; [|by apply IH].
  intros (e & Hid & He%without_id_elem)%list_elem_of_fmap_1.
  apply Hd. rewrite Hid. apply list_elem_of_fmap_2. by destruct He.
Qed.

End by_id.

(** ** Schemas and casts *)

Lemma path_of_elem M k p : path_of M k = Some p → (k, p) ∈ schema M.
Proof.
  unfold path_of. destruct (List.find _ _) as [[k' p']|] eqn:Hfind; [|done].
  intros [= <-]. apply find_some in Hfind as [Hin Hk].
  apply bool_decide_eq_true in Hk. cbn in Hk. subst k'.
  by apply list_elem_of_In.
Qed.

Lemma path_of_paths M k : k ∈ paths M ↔ is_Some (path_of M k).
Proof.
  split.
  - intros ((k' & p) & -> & Hin)%list_elem_of_fmap_1. unfold path_of.
    destruct (List.find _ _) as [kp|] eqn:Hfind; [by eexists|].
    apply list_elem_of_In in Hin.
    pose proof (find_none _ _ Hfind _ Hin) as Hno.
    apply bool_decide_eq_false in Hno. by destruct Hno.
  - intros [p Hp]. apply path_of_elem in Hp.
    by apply (list_elem_of_fmap_2 fst) in Hp.
Qed.

Lemma path_of_None M k : k ∉ paths M → path_of M k = None.
Proof.
  intros Hk. destruct (path_of M k) eqn:Hp; [|done].
  exfalso. apply Hk, path_of_paths. by eexists.
Qed.

(** No schema has a path [_id] or [__v] of its own. *)
Lemma reserved_no_path M : ("_id" ∉ paths M) ∧ ("__v" ∉ paths M).
Proof.
  split; destruct M; apply (bool_decide_unpack _); vm_compute; exact I.
Qed.

Lemma mapM_id {A} (f : A → option A) (l : list A) :
  Forall (λ x, f x = Some x) l → mapM f l = Some l.
Proof.
  intros H. apply mapM_Some. induction H; constructor; auto.
Qed.

(** A value of the type of a path casts to itself. *)
Lemma accepts_cast p v : accepts p v = true → cast p v = Some v.
Proof.
  assert (Hfit : ∀ s,
            match type p with
            | SString => true
            | SObjectId _ => hexadecimal s
            | SDate => timestamp s
            end = true → cast_scalar (type p) s = Some s).
  { intros s. unfold cast_scalar. destruct (type p).
    - done.
    - apply castObjectId_hexadecimal.
    - by intros ->. }
  unfold accepts, cast. destruct (is_array p), v as [s|l]; try done.
  - intros Hl. rewrite mapM_id; [done|].
    apply Forall_forall. intros s Hs. apply Hfit.
    rewrite forallb_forall in Hl. by apply Hl, list_elem_of_In.
  - intros Hs. by rewrite Hfit.
Qed.

Lemma filter_nil {A} (f : A → bool) (l : list A) :
  (∀ x, x ∈ l → f x = false) → List.filter f l = [].
Proof.
  induction l as [|a l IH]; cbn [List.filter]; [done|]. intros H.
  rewrite (H a (list_elem_of_here _ _)). apply IH.
  intros x Hx. by apply H, list_elem_of_further.
Qed.

Section well_typed_bodies.
Context (M : model) (body : gmap string value).
Hypothesis Htyped : well_typed M body = true.

Lemma well_typed_id : body !! "_id" = None.
Proof.
  unfold well_typed in Htyped. apply andb_true_iff in Htyped as [_ Htyped].
  apply andb_true_iff in Htyped as [[H _]%andb_true_iff _].
  by apply bool_decide_eq_true in H.
Qed.

Lemma well_typed_v : body !! "__v" = None.
Proof.
  unfold well_typed in Htyped. apply andb_true_iff in Htyped as [_ Htyped].
  apply andb_true_iff in Htyped as [[_ H]%andb_true_iff _].
  by apply bool_decide_eq_true in H.
Qed.

Lemma well_typed_accepts k p v :
  path_of M k = Some p → body !! k = Some v → accepts p v = true.
Proof.
  intros Hp Hv. unfold well_typed in Htyped.
  apply andb_true_iff in Htyped as [_ Htyped].
  apply andb_true_iff in Htyped as [_ H].
  rewrite forallb_forall in H.
  apply path_of_elem, list_elem_of_In in Hp.
  specialize (H _ Hp). cbn in H. by rewrite Hv in H.
Qed.

(** The fields a body of the types of the schema sets: its values at the
    paths of the schema. *)
Lemma well_typed_fields k :
  Model.cast_fields M body !! k
    = if decide (k ∈ paths M) then body !! k else None.
Proof.
  unfold Model.cast_fields. rewrite map_lookup_imap.
  case_decide as Hk.
  - apply path_of_paths in Hk as [p Hp].
    destruct (body !! k) as [v|] eqn:Hv; [|done]. cbn. rewrite Hp. cbn.
    by apply accepts_cast, (well_typed_accepts k).
  - rewrite (path_of_None M k Hk). by destruct (body !! k).
Qed.

Lemma well_typed_failures : Model.cast_failures M body = [].
Proof.
  unfold Model.cast_failures. rewrite well_typed_id, well_typed_v.
  rewrite !bool_decide_eq_false_2 by (intros [[? [=]] _]).
  rewrite !app_nil_r. apply filter_nil. intros k Hk.
  destruct (body !! k) as [v|] eqn:Hv; [|done].
  apply path_of_paths in Hk as [p Hp]. rewrite Hp. cbn.
  rewrite (accepts_cast p v (well_typed_accepts k p v Hp Hv)).
  rewrite bool_decide_eq_true_2 by (by eexists). done.
Qed.


End well_typed_bodies.




Lemma apply_update_id up d : _id (Model.apply_update up d) = _id d.
Proof. reflexivity. Qed.

(** ** The update and the deletion of the store *)

Section operations.
Import Model.



(** On an identifier, the deletion resolves: with the document it found
    and the collection without it. *)
Lemma findByIdAndDelete_identifier M (i : ObjectId) db :
  findByIdAndDelete M i db
    = Ok (findById M i db,
          with_collection M (delete_id i (collection M db)).2 db).
Proof.
  unfold findByIdAndDelete. rewrite castObjectId_toHexString. cbv zeta.
  by rewrite delete_id_found.
Qed.

Lemma patch_id M u d : _id (patch M u d) = _id d.
Proof. reflexivity. Qed.

Lemma patch_v M u d : __v (patch M u d) = __v d.
Proof. reflexivity. Qed.





(** What an update leaves of a database, whatever the request: nothing
    changes, or one document is replaced by its image under the cast
    update. *)
Lemma findByIdAndUpdate_cases M s u options db :
  (∃ e, findByIdAndUpdate M s u options db = Throw e) ∨
  (∃ r i up,
     castObjectId s = Some i ∧ castUpdate M u = Ok up ∧
     findByIdAndUpdate M s u options db
       = Ok (r, with_collection M
                  (update_id i (apply_update up) (collection M db)).2 db)).
Proof.
  unfold findByIdAndUpdate.
  destruct (castObjectId s) as [i|]; [|left; by eexists].
  destruct (castUpdate M u) as [up|e]; [|left; by eexists]. cbv zeta.
  rewrite update_id_found.
  destruct (lookup_id i (collection M db)) as [d|] eqn:Hd.
  - destruct (changes_id up d); [left; by eexists|].
    right. by eexists _, i, up.
  - right. exists None, i, up. split; [done|]. split; [done|].
    rewrite (update_id_absent _ _ _ Hd). cbn [snd]. by rewrite with_collection_id.
Qed.

Lemma findById_update M i (f : doc → doc) db j :
  (∀ e, _id (f e) = _id e) → j ≠ i →
  findById M j (with_collection M (update_id i f (collection M db)).2 db)
    = findById M j db.
Proof.
  intros Hf Hne. unfold findById. rewrite collection_with_collection.
  by apply update_id_lookup_ne.
Qed.


End operations.

(** ** The update handlers *)





Lemma put_db s body db :
  updated_or_not Lesson lessons_put s body db ∧
  updated_or_not Quiz quizzes_put s body db ∧
  updated_or_not Submission submissions_put s body db ∧
  updated_or_not Course courses_put s body db ∧
  updated_or_not Enrollment enrollments_put s body db.
Proof.
  unfold updated_or_not, lessons_put, quizzes_put, submissions_put, courses_put,
    enrollments_put.
  split; [|split; [|split; [|split]]];
    (match goal with
     | |- context [Model.findByIdAndUpdate ?M _ _ _ _] =>
         destruct (findByIdAndUpdate_cases M s body {| Options.new := true |} db)
           as [[e ->]|(r & i & up & Hi & Hup & ->)]
     end;
     [by left | right; exists i, up; by destruct r]).
Qed.

(** ** Update and delete by identifier *)

Lemma toJSON_id d : toJSON d !! "_id" = Some (JStr (_id d)).
Proof. unfold toJSON. by rewrite lookup_insert_eq. Qed.

Lemma toJSON_field d k :
  k ≠ "_id" → k ≠ "__v" → toJSON d !! k = value_json <$> fields d !! k.
Proof.
  intros H1 H2. unfold toJSON.
  rewrite !lookup_insert_ne by congruence. by rewrite lookup_fmap.
Qed.

Lemma path_not_reserved M k : k ∈ paths M → k ≠ "_id" ∧ k ≠ "__v".
Proof.
  intros Hk. destruct (reserved_no_path M) as [H1 H2].
  split; intros ->; [by apply H1 | by apply H2].
Qed.





Lemma sample_db_unique_ids : unique_ids sample_db.
Proof.
  intros M. destruct M; unfold ids; cbn [collection sample_db fmap list_fmap];
    repeat (apply NoDup_cons; split;
            [apply (bool_decide_unpack _); vm_compute; exact I|]);
    apply NoDup_nil_2.
Qed.










(** ** Creation: the validation of a new document *)

Lemma omap_not_nil {A B} (f : A → option B) (l : list A) x :
  x ∈ l → is_Some (f x) → omap f l ≠ [].
Proof.
  intros Hx [y Hy]. induction l as [|a l IH]; [by apply elem_of_nil in Hx|].
  cbn [omap list_omap]. apply elem_of_cons in Hx as [<-|Hx].
  - by rewrite Hy.
  - destruct (f a); [done|]. by apply IH.
Qed.

Lemma truthy_false v : truthy v = false → v = None ∨ v = Some (VStr "").
Proof.
  destruct v as [[s|l]|]; cbn; [|done|by left].
  intros H. apply bool_decide_eq_false in H. right.
  destruct (decide (s = "")) as [->|Hs]; [done|]. by destruct H.
Qed.

(** The empty string is not the value of a path, or is its value as an
    empty string. *)
Lemma cast_empty p :
  is_array p = false → cast p (VStr "") = None ∨ cast p (VStr "") = Some (VStr "").
Proof.
  intros Hp. unfold cast. rewrite Hp. cbn.
  destruct (cast_scalar (type p) "") as [s|] eqn:Hs; cbn; [|by left].
  right. revert Hs. unfold cast_scalar. destruct (type p).
  - by intros [= <-].
  - vm_compute. discriminate.
  - vm_compute. discriminate.
Qed.

Lemma path_of_schema M k p : (k, p) ∈ schema M → path_of M k = Some p.
Proof.
  intros Hin.
  destruct M; cbn [schema] in Hin;
    unfold userSchema, courseSchema, lessonSchema, quizSchema, submissionSchema,
      enrollmentSchema in Hin;
    repeat (apply elem_of_cons in Hin as [Hin|Hin];
            [injection Hin as -> ->; reflexivity|]);
    apply elem_of_nil in Hin; destruct Hin.
Qed.

(** A required path that the object gives no value, or the empty string,
    fails the validation of the new document. *)
Lemma new_missing_fails dflt M oid o k p :
  (k, p) ∈ schema M → required p = true → is_array p = false →
  dflt !! k = None → truthy (o !! k) = false →
  is_Some (Model.fails (Model.new_with dflt M oid o) (k, p)).
Proof.
  intros Hin Hreq Harr Hdflt Hmiss. unfold Model.fails. cbn [fst snd].
  case_bool_decide; [by eexists|].
  assert (truthy (fields (Model.stored (Model.new_with dflt M oid o)) !! k) = false)
    as ->; [|rewrite Hreq; by eexists].
  cbn [Model.new_with Model.stored fields].
  assert (Model.cast_fields M o !! k = None ∨
          Model.cast_fields M o !! k = Some (VStr "")) as [Hc|Hc].
  { unfold Model.cast_fields. rewrite map_lookup_imap.
    apply truthy_false in Hmiss as [-> | ->]; [by left|]. cbn.
    rewrite (path_of_schema M k p Hin). cbn.
    apply (cast_empty p Harr). }
  - by rewrite lookup_union_r, Hdflt.
  - by rewrite (lookup_union_Some_l _ _ _ _ Hc).
Qed.

Lemma save_invalid M x db kp :
  kp ∈ schema M → is_Some (Model.fails x kp) →
  ∃ failed, failed ≠ [] ∧ Model.save M x db = Throw (ValidationError M failed).
Proof.
  intros Hin Hfail. unfold Model.save.
  destruct (Model.validate M x) as [|k failed] eqn:Hv.
  - exfalso. unfold Model.validate in Hv. apply app_eq_nil in Hv as [Hv _].
    by apply (omap_not_nil _ _ kp Hin Hfail).
  - exists (k :: failed). split; [done|reflexivity].
Qed.

(** ** POST /api/quizzes *)

(** C2, as the handler behaves.  For every body in which question, answer
    or lesson is missing, the save is rejected by the validation of the
    schema, the [catch] of the handler answers 500 with [{ message:
    "Server error", error }], and the database is unchanged: the status is
    never 400. *)
Theorem quizzes_post_missing_field (oid : ObjectId) (body : gmap string value) (db : DB) :
  missing body "question" ∨ missing body "answer" ∨ missing body "lesson" →
  ∃ failed,
    failed ≠ [] ∧
    quizzes_post oid body db
      = (res_status_json 500 (server_error_body (ValidationError Quiz failed)), db).
Proof.
  intros Hmissing.
  assert (∃ kp, kp ∈ schema Quiz ∧
                is_Some (Model.fails (Model.new Quiz oid body) kp))
    as (kp & Hin & Hfail).
  { unfold missing in Hmissing.
    destruct Hmissing as [H|[H|H]];
      [exists ("question", Path false SString true)
      |exists ("answer", Path false SString true)
      |exists ("lesson", Path false (SObjectId Lesson) true)];
      (split; [apply (bool_decide_unpack _); vm_compute; exact I|]);
      (apply new_missing_fails;
       [apply (bool_decide_unpack _); vm_compute; exact I
       |reflexivity|reflexivity|reflexivity|exact H]). }
  destruct (save_invalid Quiz _ db kp Hin Hfail) as (failed & Hne & Hsave).
  exists failed. split; [exact Hne|].
  unfold quizzes_post. cbv zeta. by rewrite Hsave.
Qed.

Lemma quizzes_post_missing_field_witness :
  ∃ failed,
    failed ≠ [] ∧
    quizzes_post q2 {[ "question" := VStr "What is Express?" ]} sample_db
      = (res_status_json 500 (server_error_body (ValidationError Quiz failed)),
         sample_db).
Proof.
  apply (quizzes_post_missing_field q2
           {[ "question" := VStr "What is Express?" ]} sample_db).
  right; left. reflexivity.
Defined.

(** The same on three bodies: the error has the paths that failed, a
    reference given as the empty string among them as a value that does
    not cast. *)
Example quizzes_post_without_answer_and_lesson :
  quizzes_post q2 {[ "question" := VStr "What is Express?" ]} sample_db
    = (Sent (Response 500
         (JObj (<["message" := JStr "Server error"]>
                {[ "error" :=
                     JMessage (ValidationError Quiz
                                 [("answer", Required); ("lesson", Required)]) ]}))),
       sample_db).
Proof. vm_compute. reflexivity. Qed.

Example quizzes_post_empty_lesson :
  quizzes_post q2
    (<["question" := VStr "What is Express?"]>
     (<["answer" := VStr "A framework"]> {[ "lesson" := VStr "" ]})) sample_db
    = (res_status_json 500
         (server_error_body (ValidationError Quiz [("lesson", CastFailed)])),
       sample_db).
Proof. vm_compute. reflexivity. Qed.

Example quizzes_post_empty_body :
  status_of (quizzes_post q2 ∅ sample_db).1 = Some 500.
Proof. vm_compute. reflexivity. Qed.

(** ** Queries by equality *)

Lemma holds_CEq w o : Model.holds (Model.CEq w) o = bool_decide (o = Some w).
Proof.
  destruct o as [v|]; simpl; [|done].
  apply bool_decide_ext. split; congruence.
Qed.

Lemma head_filter_None {A} (f : A → bool) (l : list A) :
  head (List.filter f l) = None ↔ ∀ x, x ∈ l → f x = false.
Proof.
  induction l as [|a l IH]; simpl.
  - split; [|done]. intros _ x Hx. by apply elem_of_nil in Hx.
  - destruct (f a) eqn:Hfa; simpl.
    + split; [done|]. intros H. specialize (H a (list_elem_of_here _ _)).
      congruence.
    + rewrite IH. split.
      * intros H x [->|Hx]%elem_of_cons; auto.
      * intros H x Hx. apply H. by apply list_elem_of_further.
Qed.


Lemma matches_one k w d :
  Model.matches [(k, Model.CEq w)] d = bool_decide (fields d !! k = Some w).
Proof.
  unfold Model.matches. cbn [forallb fst snd]. by rewrite holds_CEq, andb_true_r.
Qed.

(** The lookup of a user by an email that is a string. *)
Lemma findOne_email e db :
  Model.findOne User [("email", Model.CEq (VStr e))] db
    = Ok (head (List.filter
                  (λ d, bool_decide (fields d !! "email" = Some (VStr e)))
                  (users db))).
Proof.
  unfold Model.findOne, Model.find. cbn. do 2 f_equal.
  apply filter_ext. intros d. apply matches_one.
Qed.



(** ** POST /api/users, step by step *)

Lemma object_literal_three a b c k :
  object_literal [("name", a); ("email", b); ("role", c)] !! k =
    if decide (k = "name") then a
    else if decide (k = "email") then b
    else if decide (k = "role") then c
    else None.
Proof.
  unfold object_literal.
  destruct a, b, c;
    cbn [omap list_omap fmap option_fmap option_map fst snd list_to_map foldr];
    rewrite ?lookup_insert, ?lookup_empty;
    repeat case_decide; simplify_eq; reflexivity.
Qed.

Lemma three_fields k :
  k ∈ ["name"; "email"; "role"] ↔ k = "name" ∨ k = "email" ∨ k = "role".
Proof.
  rewrite !elem_of_cons, elem_of_nil. tauto.
Qed.

(** The fields of the new user: the three of the body, each cast to a
    string. *)
Lemma new_user_lookup oid body k :
  fields (new_user oid body) !! k =
    if decide (k ∈ ["name"; "email"; "role"])
    then body !! k ≫= cast (Path false SString true)
    else None.
Proof.
  unfold new_user, Model.new, Model.new_with. cbn [Model.stored fields].
  change (Model.defaults User) with (∅ : gmap string value).
  rewrite lookup_union_l by apply lookup_empty.
  unfold Model.cast_fields. rewrite map_lookup_imap, object_literal_three.
  destruct (decide (k ∈ ["name"; "email"; "role"])) as [Hk|Hk].
  - apply three_fields in Hk as [-> | [-> | ->]]; cbn;
      by destruct (body !! _).
  - rewrite !decide_False; [done|..];
      intros ->; apply Hk, three_fields; auto.
Qed.

Lemma new_user_id oid body : _id (new_user oid body) = oid.
Proof.
  unfold new_user, Model.new, Model.new_with. cbn [Model.stored _id].
  by rewrite object_literal_three.
Qed.

Lemma new_user_textual oid body k s :
  k ∈ ["name"; "email"; "role"] → body !! k = Some (VStr s) →
  fields (new_user oid body) !! k = Some (VStr s).
Proof.
  intros Hk Hs. by rewrite new_user_lookup, decide_True, Hs.
Qed.

Lemma new_user_other oid body k :
  k ∉ ["name"; "email"; "role"] → fields (new_user oid body) !! k = None.
Proof. intros Hk. by rewrite new_user_lookup, decide_False. Qed.

(** A save that resolves has validated the document and appended it. *)
Lemma save_Ok M x db db' :
  Model.save M x db = Ok db' →
  Model.validate M x = [] ∧
  (_id (Model.stored x) ∉ ids M db) ∧
  db' = with_collection M (collection M db ++ [Model.stored x]) db.
Proof.
  unfold Model.save. destruct (Model.validate M x); [|done].
  case_bool_decide as Hid; [done|]. by intros [= <-].
Qed.

Lemma save_valid M x db :
  Model.validate M x = [] → _id (Model.stored x) ∉ ids M db →
  Model.save M x db
    = Ok (with_collection M (collection M db ++ [Model.stored x]) db).
Proof.
  intros Hv Hid. unfold Model.save. rewrite Hv.
  by rewrite bool_decide_eq_false_2.
Qed.

(** The create from its second await on: 201 with the new user appended,
    or 500. *)
Lemma users_post_save_cases oid body db :
  users_post_save oid body db
    = (res_status_json 201 (JObj (toJSON (new_user oid body))),
       with_collection User (users db ++ [new_user oid body]) db) ∧
    (∀ k, k ∈ ["name"; "email"; "role"] →
          truthy (fields (new_user oid body) !! k) = true) ∧
    (oid ∉ ids User db)
  ∨ ∃ e, users_post_save oid body db = (res_status_json 500 (server_error_body e), db).
Proof.
  unfold users_post_save. cbv zeta.
  destruct (Model.save User _ db) as [db'|e] eqn:Hsave; [left|right; by eexists].
  apply save_Ok in Hsave as (Hv & Hid & ->). fold (new_user oid body) in *.
  rewrite new_user_id in Hid.
  split; [reflexivity|]. split; [|exact Hid].
  intros k Hk. unfold Model.validate in Hv. apply app_eq_nil in Hv as [Hv _].
  assert (Hin : (k, Path false SString true) ∈ schema User).
  { apply three_fields in Hk as [-> | [-> | ->]];
      apply (bool_decide_unpack _); vm_compute; exact I. }
  destruct (truthy (fields (new_user oid body) !! k)) eqn:Htr; [done|].
  exfalso. apply (omap_not_nil _ _ _ Hin) in Hv; [done|].
  unfold Model.fails. cbn [fst snd required].
  case_bool_decide; [by eexists|].
  fold (new_user oid body). rewrite Htr. by eexists.
Qed.

Lemma truthy_not_missing body k : ¬ missing body k → truthy (body !! k) = true.
Proof. unfold missing. by destruct (truthy (body !! k)). Qed.

Lemma lookup_id_snoc i c d :
  Model.lookup_id i (c ++ [d])
    = match Model.lookup_id i c with
      | Some e => Some e
      | None => if decide (_id d = i) then Some d else None
      end.
Proof.
  induction c as [|e c IH]; simpl.
  - by destruct (decide _).
  - destruct (decide (_id e = i)); [done | exact IH].
Qed.

(** C8.  User create keeps only name, email and role of the body.  When
    the response is 201, the document that is sent and stored has no field
    but these three next to the identifier and version key the store
    manages; and two bodies that agree on the three fields give the same
    response and the same database, whatever else they hold. *)
Theorem users_post_keeps_three_fields (oid : ObjectId) (body : gmap string value) (db : DB) :
  (∀ r db', users_post oid body db = (Sent r, db') → status r = 201 →
     ∃ u, payload r = JObj (toJSON u) ∧
          users db' = users db ++ [u] ∧
          (∀ k, k ∉ ["name"; "email"; "role"] → fields u !! k = None) ∧
          (∀ k, k ∉ ["_id"; "__v"; "name"; "email"; "role"] → toJSON u !! k = None)) ∧
  (∀ body',
     body' !! "name" = body !! "name" → body' !! "email" = body !! "email" →
     body' !! "role" = body !! "role" →
     users_post oid body' db = users_post oid body db).
Proof.
  split.
  - intros r db'. unfold users_post.
    destruct (_ || _ || _); [intros [= <- <-]; discriminate|].
    destruct (Model.findOne User _ db) as [[u0|]|e];
      [intros [= <- <-]; discriminate| |intros [= <- <-]; discriminate].
    destruct (users_post_save_cases oid body db) as [(-> & _ & _)|(e & ->)];
      [|intros [= <- <-]; discriminate].
    intros [= <- <-] _. exists (new_user oid body).
    pose proof (new_user_other oid body) as Hout.
    split; [reflexivity|]. split; [by destruct db|]. split; [exact Hout|].
    intros k Hk. unfold toJSON.
    rewrite lookup_insert_ne by (intros <-; apply Hk, list_elem_of_here).
    rewrite lookup_insert_ne
      by (intros <-; apply Hk, list_elem_of_further, list_elem_of_here).
    rewrite lookup_fmap, Hout; [reflexivity|].
    intros Hin. apply Hk. by do 2 apply list_elem_of_further.
  - intros body' Hn He Hr. unfold users_post, users_post_save.
    by rewrite Hn, He, Hr.
Qed.

Lemma users_post_keeps_three_fields_witness :
  (∃ u, users_post u1 (<["admin" := VStr "yes"]> john_body) empty_db
          = (res_status_json 201 (JObj (toJSON u)),
             with_collection User [u] empty_db) ∧
        fields u !! "admin" = None) ∧
  users_post u1 (<["admin" := VStr "yes"]> john_body) empty_db
    = users_post u1 john_body empty_db.
Proof.
  pose proof (users_post_keeps_three_fields u1 john_body empty_db) as [_ Hsame].
  pose proof (users_post_keeps_three_fields u1
                (<["admin" := VStr "yes"]> john_body) empty_db) as [Honly _].
  split.
  - pose proof (Honly (Response 201 (JObj (toJSON john)))
                  (with_collection User [john] empty_db))
      as Hu.
    destruct Hu as (u & Hu & Hdb & Hout & _);
      [vm_compute; reflexivity | reflexivity |].
    cbn [payload] in Hu. cbn in Hdb. injection Hdb as <-.
    exists john. split; [vm_compute; reflexivity | reflexivity].
  - apply Hsame; reflexivity.
Defined.

Lemma omap_nil {A B} (f : A → option B) (l : list A) :
  (∀ x, x ∈ l → f x = None) → omap f l = [].
Proof.
  induction l as [|a l IH]; [done|]. intros H. cbn [omap list_omap].
  rewrite (H a (list_elem_of_here _ _)). apply IH.
  intros x Hx. by apply H, list_elem_of_further.
Qed.

(** A document whose values all cast is valid when its required paths
    have a value that is not empty. *)
Lemma validate_nil M x :
  Model.invalid x = [] →
  (∀ kp, kp ∈ schema M → required kp.2 = true →
         truthy (fields (Model.stored x) !! kp.1) = true) →
  Model.validate M x = [].
Proof.
  intros Hinv Hreq. unfold Model.validate. rewrite Hinv. cbn.
  rewrite app_nil_r. apply omap_nil. intros kp Hkp. unfold Model.fails.
  rewrite Hinv. rewrite bool_decide_eq_false_2 by apply not_elem_of_nil.
  destruct (required kp.2) eqn:Hr; [|done]. by rewrite (Hreq kp Hkp Hr).
Qed.




(** A create that answered 201 has appended the new user, whose three
    fields are not empty, under an identifier that was new. *)
Lemma users_post_created oid body db :
  status_of (users_post oid body db).1 = Some 201 →
  users_post oid body db
    = (res_status_json 201 (JObj (toJSON (new_user oid body))),
       with_collection User (users db ++ [new_user oid body]) db) ∧
  (∀ k, k ∈ ["name"; "email"; "role"] →
        truthy (fields (new_user oid body) !! k) = true) ∧
  (oid ∉ ids User db).
Proof.
  unfold users_post.
  destruct (_ || _ || _); [discriminate|].
  destruct (Model.findOne User _ db) as [[u0|]|e]; [discriminate| |discriminate].
  destruct (users_post_save_cases oid body db) as [(-> & Htr & Hid)|(e & ->)];
    [|discriminate].
  intros _. split; [reflexivity|]. split; [exact Htr | exact Hid].
Qed.

(** ** POST /api/users *)






(** ** The list requests *)

Lemma matches_app q1 q2 d :
  Model.matches (q1 ++ q2) d = Model.matches q1 d && Model.matches q2 d.
Proof. unfold Model.matches. apply forallb_app. Qed.

Lemma matches_assign_if k x q d :
  Model.matches (assign_if k x q) d = Model.matches q d && criterion k x d.
Proof.
  unfold assign_if, criterion, truthy_param, ref_is.
  destruct x as [s|]; [|by rewrite andb_true_r].
  destruct (decide (s = "")) as [->|Hs].
  - cbn. by rewrite andb_true_r.
  - rewrite (bool_decide_eq_true_2 _ Hs), (bool_decide_eq_false_2 _ Hs).
    by rewrite matches_app, matches_one.
Qed.

Lemma assign_if_empty k q : assign_if k (Some "") q = q.
Proof. reflexivity. Qed.

Lemma assign_regex_if_empty regex k options q :
  assign_regex_if regex k (Some "") options q = Ok q.
Proof. reflexivity. Qed.

Lemma filter_true {A} (l : list A) : List.filter (λ _, true) l = l.
Proof. induction l as [|a l IH]; simpl; congruence. Qed.

Lemma cast_query_snoc M q q' k c c' p :
  path_of M k = Some p → Model.cast_cond p c = Some c' →
  Model.cast_query M q = Ok q' →
  Model.cast_query M (q ++ [(k, c)]) = Ok (q' ++ [(k, c')]).
Proof.
  intros Hp Hc. revert q'.
  induction q as [|[k0 c0] q IH]; intros q'; cbn [app Model.cast_query].
  - intros [= <-]. by rewrite Hp, Hc.
  - destruct (path_of M k0) as [p0|].
    + destruct (Model.cast_cond p0 c0) as [c0'|]; [|done].
      destruct (Model.cast_query M q) as [r|]; [|done].
      intros [= <-]. by rewrite (IH r eq_refl).
    + destruct (Model.cast_query M q) as [r|]; [|done].
      intros [= <-]. by rewrite (IH r eq_refl).
Qed.

(** A criterion on a reference that is omitted, empty or the text of an
    identifier is cast to itself. *)
Lemma assign_if_cast M k R req x q q' :
  path_of M k = Some (Path false (SObjectId R) req) →
  identifier_or_empty x = true →
  Model.cast_query M q = Ok q' →
  Model.cast_query M (assign_if k x q) = Ok (assign_if k x q').
Proof.
  intros Hp Hx Hq. unfold assign_if, truthy_param.
  destruct x as [s|]; [|exact Hq].
  case_bool_decide as Hs; [|exact Hq].
  apply (cast_query_snoc M q q' k _ _ _ Hp); [|exact Hq].
  cbn in Hx. rewrite bool_decide_eq_false_2 in Hx by exact Hs. cbn in Hx.
  cbn. by rewrite (castObjectId_hexadecimal s Hx).
Qed.

Lemma find_cast M q q' db :
  Model.cast_query M q = Ok q' →
  Model.find M q db = Ok (List.filter (Model.matches q') (collection M db)).
Proof. intros Hq. unfold Model.find. by rewrite Hq. Qed.

Lemma find_all M db : Model.find M [] db = Ok (collection M db).
Proof. unfold Model.find. cbn. by rewrite filter_true. Qed.

(** A list finds the documents of the collection that pass some test, or
    is rejected. *)
Lemma find_shape M q db :
  (∃ f, Model.find M q db = Ok (List.filter f (collection M db))) ∨
  (∃ e, Model.find M q db = Throw e).
Proof.
  unfold Model.find. destruct (Model.cast_query M q) as [q'|e].
  - left. by eexists.
  - right. by eexists.
Qed.

Lemma users_get_eval db :
  users_get db
    = (res_json (JArr ((λ d, JObj (delete "__v" (toJSON d))) <$> users db)), db).
Proof. unfold users_get. by rewrite find_all. Qed.


Lemma quizzes_get_eval q db :
  identifier_or_empty (q !! "lesson") = true →
  quizzes_get q db
    = listed Quiz ["lesson"] db
        (List.filter (criterion "lesson" (q !! "lesson")) (quizzes db)).
Proof.
  intros Hc. unfold quizzes_get, listed. cbv zeta.
  rewrite (find_cast Quiz _ _ db
             (assign_if_cast Quiz "lesson" Lesson true _ [] [] eq_refl Hc eq_refl)).
  do 4 f_equal. apply filter_ext. intros d. by rewrite matches_assign_if.
Qed.



Lemma matches_regex k matcher d :
  k = "title" →
  Model.matches [(k, Model.CRegex matcher)] d = title_matches matcher d.
Proof.
  intros ->. unfold Model.matches, title_matches. cbn [forallb fst snd Model.holds].
  rewrite andb_true_r. by destruct (fields d !! "title") as [[s|l]|].
Qed.

(** The course list with a title the engine compiles. *)
Lemma courses_get_compiled regex q db t matcher :
  q !! "title" = Some t → t ≠ "" → regex t "i" = Some matcher →
  identifier_or_empty (q !! "instructor") = true →
  courses_get regex q db
    = listed Course ["instructor"; "lessons"] db
        (List.filter
           (λ d, title_matches matcher d
                 && criterion "instructor" (q !! "instructor") d)
           (courses db)).
Proof.
  intros Ht Hne Hre Hi. unfold courses_get, assign_regex_if, listed. cbv zeta.
  rewrite Ht. cbn [truthy_param]. rewrite (bool_decide_eq_true_2 _ Hne), Hre.
  rewrite (find_cast Course _ _ db
             (assign_if_cast Course "instructor" User true _
                ([] ++ [("title", Model.CRegex matcher)])
                [("title", Model.CRegex matcher)] eq_refl Hi eq_refl)).
  do 4 f_equal. apply filter_ext. intros d.
  by rewrite matches_assign_if, matches_regex.
Qed.


(** The course list with a title the engine refuses. *)
Lemma courses_get_refused regex q db t :
  q !! "title" = Some t → t ≠ "" → regex t "i" = None →
  courses_get regex q db
    = (Unhandled (MongoServerError "Regular expression is invalid"), db).
Proof.
  intros Ht Hne Hre. unfold courses_get, assign_regex_if.
  rewrite Ht. cbn [truthy_param]. by rewrite (bool_decide_eq_true_2 _ Hne), Hre.
Qed.

(** For a title without metacharacters, over courses with ASCII titles,
    the filter is the containment of the title, letter case ignored, next
    to the exact match on the instructor. *)
Lemma courses_get_plain_title regex q db t :
  plain_is_substring_search regex → ascii_titles db →
  q !! "title" = Some t → t ≠ "" → plain t = true →
  identifier_or_empty (q !! "instructor") = true →
  courses_get regex q db
    = listed Course ["instructor"; "lessons"] db
        (List.filter
           (λ d, title_contains t d
                 && criterion "instructor" (q !! "instructor") d)
           (courses db)).
Proof.
  intros Hengine Hascii Ht Hne Hplain Hi.
  destruct (Hengine t Hplain) as (matcher & Hre & Hsearch).
  rewrite (courses_get_compiled regex q db t matcher Ht Hne Hre Hi).
  unfold listed. do 4 f_equal. apply List.filter_ext_in.
  intros d Hd%list_elem_of_In. f_equal.
  unfold title_contains, title_matches.
  destruct (fields d !! "title") as [[s|l]|] eqn:Htitle; [|done..].
  apply Hsearch. by apply (Hascii d).
Qed.




(** C9.  In every list request a criterion supplied as the empty string
    behaves as the criterion omitted; so the quiz list with an empty
    [lesson] and no other parameter of its own answers with every quiz. *)
Theorem empty_criterion_is_omitted
    (regex : engine) (q : gmap string string) (db : DB) :
  lessons_get (<["course" := ""]> q) db = lessons_get (delete "course" q) db ∧
  quizzes_get (<["lesson" := ""]> q) db = quizzes_get (delete "lesson" q) db ∧
  quizzes_get (<["lesson" := ""]> q) db = listed Quiz ["lesson"] db (quizzes db) ∧
  submissions_get (<["student" := ""]> q) db
    = submissions_get (delete "student" q) db ∧
  submissions_get (<["quiz" := ""]> q) db = submissions_get (delete "quiz" q) db ∧
  courses_get regex (<["title" := ""]> q) db
    = courses_get regex (delete "title" q) db ∧
  courses_get regex (<["instructor" := ""]> q) db
    = courses_get regex (delete "instructor" q) db ∧
  enrollments_get (<["student" := ""]> q) db
    = enrollments_get (delete "student" q) db ∧
  enrollments_get (<["course" := ""]> q) db
    = enrollments_get (delete "course" q) db.
Proof.
  assert (Hall : quizzes_get (<["lesson" := ""]> q) db
                 = listed Quiz ["lesson"] db (quizzes db)).
  { rewrite quizzes_get_eval; rewrite lookup_insert_eq; [|reflexivity].
    change (criterion "lesson" (Some "")) with (λ _ : doc, true).
    by rewrite filter_true. }
  unfold lessons_get, submissions_get, courses_get, enrollments_get.
  rewrite Hall. unfold quizzes_get.
  cbv zeta.
  rewrite !lookup_insert_eq, !lookup_delete_eq.
  rewrite !lookup_insert_ne, !lookup_delete_ne by discriminate.
  rewrite !assign_if_empty, !assign_regex_if_empty.
  split; [reflexivity|]. split.
  { cbn [assign_if truthy_param]. by rewrite find_all. }
  split; [reflexivity|].
  split; [reflexivity|]. split; [reflexivity|]. split; [reflexivity|].
  split; [reflexivity|]. split; reflexivity.
Qed.

(** ** The title filter of the course list *)

Lemma small_engine_plain : plain_is_substring_search small_engine.
Proof.
  intros p Hp. exists (contains_ci p). unfold small_engine.
  rewrite Hp. split; reflexivity.
Qed.

Lemma has_printable_has_char s : has_printable s = true → has_char s = true.
Proof.
  unfold has_printable, has_char. rewrite !existsb_exists.
  intros (c & Hc & Hprint). exists c. split; [exact Hc|].
  destruct (Ascii.eqb_spec c newline) as [->|]; [discriminate Hprint|reflexivity].
Qed.

Lemma small_engine_dot : dot_is_wildcard small_engine.
Proof.
  exists has_char. split; [reflexivity | apply has_printable_has_char].
Qed.

Lemma sample_db_ascii_titles : ascii_titles sample_db.
Proof.
  intros d s Hd. cbn [sample_db courses] in Hd.
  apply elem_of_cons in Hd as [->|Hd];
    [|apply elem_of_cons in Hd as [->|Hd]; [|by apply elem_of_nil in Hd]];
    intros Hs; vm_compute in Hs; injection Hs as <-; reflexivity.
Qed.

(** The example of C5: [intro] finds "Introduction to Node.js" and not
    "Advanced Topics". *)
Example courses_get_intro :
  courses_get small_engine {[ "title" := "intro" ]} sample_db
    = listed Course ["instructor"; "lessons"] sample_db [node_course] ∧
  title_contains "intro" node_course = true ∧
  title_contains "intro" advanced_course = false.
Proof.
  split; [|split; reflexivity].
  rewrite (courses_get_plain_title small_engine {[ "title" := "intro" ]}
             sample_db "intro" small_engine_plain sample_db_ascii_titles);
    [vm_compute; reflexivity|reflexivity|discriminate|reflexivity|reflexivity].
Qed.

(** C5, as the handler behaves.  The title is handed to the engine as a
    regular expression, not as a text to search for: with the title [.]
    the course list answers with every course whose title has a
    character, "Advanced Topics" among them, whose title does not contain
    a full stop. *)
Theorem courses_get_title_is_a_pattern (regex : engine) :
  dot_is_wildcard regex →
  courses_get regex {[ "title" := "." ]} sample_db
    = listed Course ["instructor"; "lessons"] sample_db
        [node_course; advanced_course] ∧
  title_contains "." advanced_course = false.
Proof.
  intros (matcher & Hre & Hany). split; [|reflexivity].
  rewrite (courses_get_compiled regex {[ "title" := "." ]} sample_db "." matcher);
    [|reflexivity|discriminate|exact Hre|reflexivity].
  unfold listed. do 4 f_equal.
  cbn [sample_db courses List.filter].
  assert (title_matches matcher node_course = true) as ->.
  { change (title_matches matcher node_course)
      with (matcher "Introduction to Node.js"). by rewrite Hany. }
  assert (title_matches matcher advanced_course = true) as ->.
  { change (title_matches matcher advanced_course)
      with (matcher "Advanced Topics"). by rewrite Hany. }
  reflexivity.
Qed.

Lemma courses_get_title_is_a_pattern_witness :
  courses_get small_engine {[ "title" := "." ]} sample_db
    = listed Course ["instructor"; "lessons"] sample_db
        [node_course; advanced_course] ∧
  title_contains "." advanced_course = false.
Proof.
  apply (courses_get_title_is_a_pattern small_engine).
  exists has_char. split; [reflexivity | apply has_printable_has_char].
Defined.

(** ** The route table *)

(** C7, as stated, fails: the enrollment router is not mounted at
    [/enrollments]; its one prefix is [/api/enrollments]. *)
Lemma enrollmentRoutes_mount_counterexample :
  ¬ enrollments_outside_api ∧
  mounted_at enrollmentRoutes = ["/api/enrollments"] ∧
  ("/enrollments", enrollmentRoutes) ∉ app_use.
Proof.
  split; [|split].
  - intros [H _]. vm_compute in H. discriminate H.
  - reflexivity.
  - apply (bool_decide_unpack _). vm_compute. exact I.
Qed.

(** C7, amended.  Every router, the enrollment router included, is
    mounted once, at [/api/<plural-entity-name>]. *)
Theorem every_router_under_api (r : router) : mounted_at r = [api_prefix r].
Proof. by destruct r. Qed.

(** * Further properties of the handlers *)

(** ** DELETE by identifier *)

(** The database after a delete request on an identifier. *)
Lemma delete_db (i : ObjectId) db :
  (lessons_delete i db).2
    = with_collection Lesson (Model.delete_id i (lessons db)).2 db ∧
  (quizzes_delete i db).2
    = with_collection Quiz (Model.delete_id i (quizzes db)).2 db ∧
  (submissions_delete i db).2
    = with_collection Submission (Model.delete_id i (submissions db)).2 db ∧
  (courses_delete i db).2
    = with_collection Course (Model.delete_id i (courses db)).2 db ∧
  (enrollments_delete i db).2
    = with_collection Enrollment (Model.delete_id i (enrollments db)).2 db.
Proof.
  unfold lessons_delete, quizzes_delete, submissions_delete, courses_delete,
    enrollments_delete.
  rewrite !findByIdAndDelete_identifier.
  split; [|split; [|split; [|split]]]; try reflexivity.
  by destruct (Model.findById Quiz i db).
Qed.

(** The database after a delete request, whatever the request. *)
Lemma delete_db_any s db :
  let after M (del : string → DB → outcome * DB) :=
    (del s db).2 = db ∨
    ∃ i, (del s db).2 = with_collection M (Model.delete_id i (collection M db)).2 db in
  after Lesson lessons_delete ∧ after Quiz quizzes_delete ∧
  after Submission submissions_delete ∧ after Course courses_delete ∧
  after Enrollment enrollments_delete.
Proof.
  cbv zeta.
  unfold lessons_delete, quizzes_delete, submissions_delete, courses_delete,
    enrollments_delete, Model.findByIdAndDelete.
  destruct (castObjectId s) as [i|]; cbv zeta.
  - split; [|split; [|split; [|split]]]; right; exists i; try reflexivity.
    by destruct (Model.delete_id i (collection Quiz db)).1.
  - split; [|split; [|split; [|split]]]; by left.
Qed.

Lemma deleted_unique M (i : ObjectId) db :
  unique_ids db →
  let db' := with_collection M (Model.delete_id i (collection M db)).2 db in
  collection M db' = without_id i (collection M db) ∧
  Model.findById M i db' = None ∧
  (∀ j, j ≠ i → Model.findById M j db' = Model.findById M j db) ∧
  (∀ N, N ≠ M → collection N db' = collection N db).
Proof.
  intros Hu. cbv zeta. unfold Model.findById.
  rewrite collection_with_collection, (delete_id_without _ _ (Hu M)).
  split; [reflexivity|]. split; [apply lookup_id_without|].
  split; [intros j Hj; by apply lookup_id_without_ne|].
  intros N HN. by apply collection_with_collection_ne.
Qed.



(** X4.  With unique identifiers, each DELETE removes the document with
    the identifier and nothing else: the collection afterwards is the
    collection without that document, a lookup of the identifier finds
    nothing, every other document is found as before, and every other
    collection is as it was (nothing is deleted in cascade). *)
Theorem delete_removes_one_document :
  removes_one_document Lesson lessons_delete ∧
  removes_one_document Quiz quizzes_delete ∧
  removes_one_document Submission submissions_delete ∧
  removes_one_document Course courses_delete ∧
  removes_one_document Enrollment enrollments_delete.
Proof.
  split; [|split; [|split; [|split]]]; intros id db Hu;
    pose proof (delete_db id db) as (Hl & Hq & Hs & Hc & He);
    rewrite ?Hl, ?Hq, ?Hs, ?Hc, ?He;
    first [exact (deleted_unique Lesson id db Hu)
          |exact (deleted_unique Quiz id db Hu)
          |exact (deleted_unique Submission id db Hu)
          |exact (deleted_unique Course id db Hu)
          |exact (deleted_unique Enrollment id db Hu)].
Qed.

Lemma delete_removes_one_document_witness :
  collection Course (courses_delete c1 sample_db).2 = [advanced_course] ∧
  Model.findById Course c1 (courses_delete c1 sample_db).2 = None ∧
  Model.findById Course c2 (courses_delete c1 sample_db).2
    = Some advanced_course ∧
  collection Lesson (courses_delete c1 sample_db).2 = [express_lesson].
Proof.
  pose proof delete_removes_one_document as (_ & _ & _ & Hc & _).
  pose proof (Hc c1 sample_db sample_db_unique_ids) as (Hcoll & Hgone & Hrest & Hother).
  split; [|split; [|split]].
  - rewrite Hcoll. reflexivity.
  - exact Hgone.
  - rewrite Hrest; [reflexivity|discriminate].
  - rewrite Hother; [reflexivity|discriminate].
Defined.

(** ** PUT by identifier *)

Lemma updated_frame M (i : ObjectId) (f : doc → doc) db :
  (∀ e, _id (f e) = _id e) →
  let db' := with_collection M (Model.update_id i f (collection M db)).2 db in
  (∀ N, N ≠ M → collection N db' = collection N db) ∧
  (∀ j, j ≠ i → Model.findById M j db' = Model.findById M j db) ∧
  ids M db' = ids M db.
Proof.
  intros Hf. cbv zeta. split; [|split].
  - intros N HN. by apply collection_with_collection_ne.
  - intros j Hj. by apply findById_update.
  - unfold ids. rewrite collection_with_collection. by apply update_id_ids.
Qed.

Lemma put_touches M put :
  (∀ s body db, updated_or_not M put s body db) → touches_one_document M put.
Proof.
  intros Hput id body db.
  destruct (Hput id body db) as [->|(i & up & Hi & _ & ->)]; [done|].
  rewrite castObjectId_toHexString in Hi. injection Hi as <-.
  by apply updated_frame.
Qed.

(** X5.  Each PUT changes at most the document it is given the
    identifier of: the other collections, the other documents of the
    collection, and the identifiers of the collection in their order are
    as before; no document is added or removed. *)
Theorem put_touches_one_document :
  touches_one_document Lesson lessons_put ∧
  touches_one_document Quiz quizzes_put ∧
  touches_one_document Submission submissions_put ∧
  touches_one_document Course courses_put ∧
  touches_one_document Enrollment enrollments_put.
Proof.
  split; [|split; [|split; [|split]]]; apply put_touches; intros s body db;
    pose proof (put_db s body db) as (Hl & Hq & Hs & Hc & He); assumption.
Qed.

Lemma put_touches_one_document_witness :
  Model.findById Course c2
    (courses_put c1 {[ "title" := VStr "Node.js in depth" ]} sample_db).2
    = Some advanced_course ∧
  collection Lesson
    (courses_put c1 {[ "title" := VStr "Node.js in depth" ]} sample_db).2
    = [express_lesson].
Proof.
  pose proof put_touches_one_document as (_ & _ & _ & Hc & _).
  pose proof (Hc c1 {[ "title" := VStr "Node.js in depth" ]} sample_db)
    as (Hother & Hrest & _).
  split.
  - rewrite Hrest; [reflexivity|discriminate].
  - rewrite Hother; [reflexivity|discriminate].
Defined.








(** ** Two updates in a row *)









(** ** An update runs no validator *)




(** ** Creation *)

Lemma complete_truthy M body kp :
  complete M body = true → kp ∈ schema M → required kp.2 = true →
  truthy (body !! kp.1) = true.
Proof.
  unfold complete. rewrite forallb_forall. intros H Hin Hreq.
  specialize (H kp (proj1 (list_elem_of_In _ _) Hin)).
  by rewrite Hreq in H.
Qed.

Lemma forallb_false {A} (f : A → bool) (l : list A) :
  forallb f l = false → ∃ x, x ∈ l ∧ f x = false.
Proof.
  induction l as [|a l IH]; cbn [forallb]; [done|].
  destruct (f a) eqn:Hfa; cbn.
  - intros H. destruct (IH H) as (x & Hx & Hfx). exists x.
    split; [by apply list_elem_of_further | exact Hfx].
  - intros _. exists a. split; [apply list_elem_of_here | exact Hfa].
Qed.

Lemma complete_false M body :
  complete M body = false →
  ∃ kp, kp ∈ schema M ∧ required kp.2 = true ∧ truthy (body !! kp.1) = false.
Proof.
  intros H. apply forallb_false in H as (kp & Hin & Hf).
  exists kp. split; [exact Hin|].
  destruct (required kp.2); [|discriminate Hf]. by split.
Qed.

(** The required paths of the schemas hold no array and have no
    default. *)
Lemma required_scalar M kp :
  kp ∈ schema M → required kp.2 = true → is_array kp.2 = false.
Proof.
  intros Hin.
  destruct M; cbn [schema] in Hin;
    unfold userSchema, courseSchema, lessonSchema, quizSchema, submissionSchema,
      enrollmentSchema in Hin;
    repeat (apply elem_of_cons in Hin as [-> | Hin];
            [cbn; first [by intros _ | intros H; discriminate H]|]);
    apply elem_of_nil in Hin; destruct Hin.
Qed.

Lemma defaults_lookup M k v :
  Model.defaults M !! k = Some v →
  ∃ p, (k, p) ∈ schema M ∧ is_array p = true ∧ v = VList [].
Proof.
  unfold Model.defaults. intros H%elem_of_list_to_map_2.
  apply list_elem_of_omap in H as ([k' p] & Hin & Hp). cbn [fst snd] in Hp.
  destruct (is_array p) eqn:Harr; [|discriminate Hp].
  injection Hp as <- <-. by exists p.
Qed.

Lemma defaults_required M kp :
  kp ∈ schema M → required kp.2 = true → Model.defaults M !! kp.1 = None.
Proof.
  intros Hin Hreq. destruct (Model.defaults M !! kp.1) as [v|] eqn:Hd; [|done].
  apply defaults_lookup in Hd as (p & Hp & Harr & _).
  destruct kp as [k p']. cbn [fst snd] in *.
  apply path_of_schema in Hin, Hp. rewrite Hin in Hp. injection Hp as ->.
  apply path_of_elem in Hin.
  pose proof (required_scalar M (k, p) Hin Hreq) as Hscalar.
  cbn [snd] in Hscalar. congruence.
Qed.

Lemma defaults_strict M k : k ∉ paths M → Model.defaults M !! k = None.
Proof.
  intros Hk. destruct (Model.defaults M !! k) as [v|] eqn:Hd; [|done].
  apply defaults_lookup in Hd as (p & Hp & _).
  exfalso. apply Hk. by apply (list_elem_of_fmap_2 fst) in Hp.
Qed.

(** The save of a new document, for a body of the types of the schema
    with its required paths and a generated identifier that is new. *)
Lemma save_new dflt M oid body db :
  (∀ kp, kp ∈ schema M → required kp.2 = true → dflt !! kp.1 = None) →
  well_typed M body = true → complete M body = true → fresh oid M db →
  Model.save M (Model.new_with dflt M oid body) db
    = Ok (with_collection M
            (collection M db ++ [Model.stored (Model.new_with dflt M oid body)])
            db) ∧
  _id (Model.stored (Model.new_with dflt M oid body)) = oid.
Proof.
  intros Hdflt Ht Hc Hfresh.
  assert (Hid : _id (Model.stored (Model.new_with dflt M oid body)) = oid).
  { cbn [Model.new_with Model.stored _id]. by rewrite (well_typed_id M body Ht). }
  split; [|exact Hid].
  apply save_valid; [|by rewrite Hid].
  apply validate_nil.
  - cbn [Model.new_with Model.invalid]. by apply well_typed_failures.
  - intros kp Hkp Hreq. cbn [Model.new_with Model.stored fields].
    pose proof (complete_truthy M body kp Hc Hkp Hreq) as Htr.
    destruct (body !! kp.1) as [v|] eqn:Hv; [|discriminate Htr].
    rewrite (lookup_union_Some_l _ _ _ v); [exact Htr|].
    rewrite (well_typed_fields M body Ht), decide_True; [exact Hv|].
    by apply (list_elem_of_fmap_2 fst) in Hkp.
Qed.

(** The fields of a new document, for a body of the types of the
    schema. *)
Lemma new_fields dflt M oid body k :
  well_typed M body = true →
  fields (Model.stored (Model.new_with dflt M oid body)) !! k
    = if decide (k ∈ paths M)
      then match body !! k with Some v => Some v | None => dflt !! k end
      else dflt !! k.
Proof.
  intros Ht. cbn [Model.new_with Model.stored fields].
  rewrite lookup_union, (well_typed_fields M body Ht).
  case_decide.
  - destruct (body !! k) as [v|]; [by rewrite (union_Some_l v) |].
    by rewrite (left_id_L None union).
  - by rewrite (left_id_L None union).
Qed.

(** A missing required path, or an array at a path of strings, fails the
    save. *)
Lemma save_incomplete dflt M oid body db :
  (∀ kp, kp ∈ schema M → required kp.2 = true → dflt !! kp.1 = None) →
  complete M body = false →
  ∃ failed, failed ≠ [] ∧
    Model.save M (Model.new_with dflt M oid body) db
      = Throw (ValidationError M failed).
Proof.
  intros Hdflt Hc.
  apply complete_false in Hc as ([k p] & Hin & Hreq & Hmiss).
  apply (save_invalid M _ db (k, p) Hin).
  apply new_missing_fails; try done.
  - by apply (required_scalar M (k, p)).
  - by apply (Hdflt (k, p)).
Qed.

Lemma cast_failures_elem M (o : gmap string value) k p v :
  path_of M k = Some p → o !! k = Some v → cast p v = None →
  k ∈ Model.cast_failures M o.
Proof.
  intros Hp Hv Hc. unfold Model.cast_failures. apply elem_of_app. left.
  apply list_elem_of_In, filter_In. split.
  - apply list_elem_of_In, path_of_paths. by eexists.
  - rewrite Hv, Hp. cbn. rewrite Hc.
    by rewrite bool_decide_eq_false_2 by (by intros [? [=]]).
Qed.

Lemma save_array dflt M oid body db k req l :
  path_of M k = Some (Path false SString req) → body !! k = Some (VList l) →
  ∃ failed, (k, CastFailed) ∈ failed ∧
    Model.save M (Model.new_with dflt M oid body) db
      = Throw (ValidationError M failed).
Proof.
  intros Hp Hv.
  assert (Hin : (k, CastFailed) ∈ Model.validate M (Model.new_with dflt M oid body)).
  { unfold Model.validate. apply elem_of_app. left.
    apply list_elem_of_omap. exists (k, Path false SString req).
    split; [by apply path_of_elem|].
    unfold Model.fails. cbn [fst snd Model.new_with Model.invalid].
    rewrite bool_decide_eq_true_2; [done|].
    by apply (cast_failures_elem M body k _ _ Hp Hv). }
  unfold Model.save.
  destruct (Model.validate M _) as [|x failed] eqn:Hval.
  - by apply elem_of_nil in Hin.
  - by exists (x :: failed).
Qed.

(** A handler that saves [new Model(req.body)] and answers 201, or lets
    [answer] deal with the rejection. *)
Lemma post_outcomes dflt M answer
    (post : ObjectId → gmap string value → DB → outcome * DB) :
  (∀ kp, kp ∈ schema M → required kp.2 = true → dflt !! kp.1 = None) →
  (∀ k, k ∉ paths M → dflt !! k = None) →
  (∀ oid body db,
     post oid body db
       = match Model.save M (Model.new_with dflt M oid body) db with
         | Ok db' =>
             (res_status_json 201
                (JObj (toJSON (Model.stored (Model.new_with dflt M oid body)))),
              db')
         | Throw err => (answer err, db)
         end) →
  creates_document M post ∧ rejects_incomplete M answer post ∧
  rejects_array M answer post.
Proof.
  intros Hreq Hout Hpost. split; [|split].
  - intros oid body db Ht Hc Hfresh. rewrite Hpost.
    destruct (save_new dflt M oid body db Hreq Ht Hc Hfresh) as [-> Hid].
    exists (Model.stored (Model.new_with dflt M oid body)). cbn [fst snd].
    split; [reflexivity|].
    split; [by rewrite collection_with_collection|].
    split; [intros N HN; by apply collection_with_collection_ne|].
    split; [exact Hid|]. split; [reflexivity|].
    split; [|split].
    + intros k v Hk Hv.
      assert (Hf : fields (Model.stored (Model.new_with dflt M oid body)) !! k
                   = Some v).
      { by rewrite (new_fields dflt M oid body k Ht), decide_True, Hv. }
      split; [exact Hf|].
      destruct (path_not_reserved M k Hk) as [H1 H2].
      by rewrite (toJSON_field _ k H1 H2), Hf.
    + intros k Hk.
      rewrite (new_fields dflt M oid body k Ht), decide_False by exact Hk.
      by apply Hout.
    + by rewrite toJSON_id, Hid.
  - intros oid body db Hc. rewrite Hpost.
    destruct (save_incomplete dflt M oid body db Hreq Hc) as (failed & Hne & ->).
    by exists failed.
  - intros oid body db k req l Hp Hv. rewrite Hpost.
    destruct (save_array dflt M oid body db k req l Hp Hv) as (failed & Hin & ->).
    by exists failed.
Qed.


(** X1.  POST /api/quizzes.  For a body of the types of the schema with
    question, answer and lesson, and a generated identifier that is new,
    the answer is 201 with the new quiz, which is added at the end of the
    quizzes.  For a body that lacks one of the three, or gives an array
    to a path of strings, the save is rejected, the answer is 500 and the
    database is unchanged.  No body gets another status than 201 or 500. *)
Theorem quizzes_post_outcome :
  creates_document Quiz quizzes_post ∧
  rejects_incomplete Quiz (λ err, res_status_json 500 (server_error_body err))
    quizzes_post ∧
  rejects_array Quiz (λ err, res_status_json 500 (server_error_body err))
    quizzes_post ∧
  (∀ oid body db,
     status_of (quizzes_post oid body db).1 = Some 201 ∨
     status_of (quizzes_post oid body db).1 = Some 500).
Proof.
  pose proof (post_outcomes (Model.defaults Quiz) Quiz
                (λ err, res_status_json 500 (server_error_body err)) quizzes_post
                (defaults_required Quiz) (defaults_strict Quiz)
                (λ oid body db, eq_refl)) as (H1 & H2 & H3).
  split; [exact H1|]. split; [exact H2|]. split; [exact H3|].
  intros oid body db. unfold quizzes_post. cbv zeta.
  destruct (Model.save Quiz _ db); [by left | by right].
Qed.

Lemma quizzes_post_outcome_witness :
  (∃ d,
     (quizzes_post q2
        (<["question" := VStr "What is Express?"]>
         (<["answer" := VStr "A framework"]> {[ "lesson" := VStr l1 ]}))
        sample_db).1 = res_status_json 201 (JObj (toJSON d)) ∧
     quizzes (quizzes_post q2
        (<["question" := VStr "What is Express?"]>
         (<["answer" := VStr "A framework"]> {[ "lesson" := VStr l1 ]}))
        sample_db).2 = [node_quiz; d] ∧
     _id d = q2 ∧
     fields d !! "lesson" = Some (VStr l1) ∧
     toJSON d !! "question" = Some (JStr "What is Express?")) ∧
  (∃ failed,
     quizzes_post q2
       (<["question" := VList ["What"; "is"; "Express?"]]>
        (<["answer" := VStr "A framework"]> {[ "lesson" := VStr l1 ]}))
       sample_db
     = (res_status_json 500 (server_error_body (ValidationError Quiz failed)),
        sample_db)).
Proof.
  pose proof quizzes_post_outcome as (Hcreate & _ & Harray & _).
  split.
  - pose proof (Hcreate q2
                  (<["question" := VStr "What is Express?"]>
                   (<["answer" := VStr "A framework"]> {[ "lesson" := VStr l1 ]}))
                  sample_db eq_refl eq_refl) as Hd.
    destruct Hd as (d & Hres & Hcoll & _ & Hid & _ & Hset & _).
    { apply (bool_decide_unpack _). vm_compute. exact I. }
    exists d. split; [exact Hres|]. split; [exact Hcoll|]. split; [exact Hid|].
    split.
    + apply (Hset "lesson" (VStr l1));
        [apply (bool_decide_unpack _); vm_compute; exact I | reflexivity].
    + apply (Hset "question" (VStr "What is Express?"));
        [apply (bool_decide_unpack _); vm_compute; exact I | reflexivity].
  - pose proof (Harray q2
                  (<["question" := VList ["What"; "is"; "Express?"]]>
                   (<["answer" := VStr "A framework"]> {[ "lesson" := VStr l1 ]}))
                  sample_db "question" true ["What"; "is"; "Express?"]
                  eq_refl eq_refl) as (failed & _ & Hres).
    by exists failed.
Defined.



(** Both branches of X2 on the sample data, and the default of the
    enrollment date. *)
Example lessons_post_sample :
  (lessons_post l2 {[ "title" := VStr "Routing" ]} sample_db).1
    = Unhandled (ValidationError Lesson [("course", Required)]) ∧
  (lessons_post l2 {[ "course" := VStr "c1" ]} sample_db).1
    = Unhandled (ValidationError Lesson
                   [("title", Required); ("course", CastFailed)]) ∧
  status_of (lessons_post l2
               (<["title" := VStr "Routing"]> {[ "course" := VStr c1 ]})
               sample_db).1 = Some 201.
Proof. split; [|split]; vm_compute; reflexivity. Qed.

Example enrollments_post_sample :
  enrollments_post e2 "2024-01-15T09:30:00.000Z"
    (<["student" := VStr u1]> {[ "course" := VStr c2 ]}) sample_db
  = (res_status_json 201
       (JObj (toJSON
          (Doc e2
             (<["student" := VStr u1]>
              (<["course" := VStr c2]>
               {[ "enrollmentDate" := VStr "2024-01-15T09:30:00.000Z" ]}))
             0))),
     with_collection Enrollment
       [john_enrollment;
        Doc e2
          (<["student" := VStr u1]>
           (<["course" := VStr c2]>
            {[ "enrollmentDate" := VStr "2024-01-15T09:30:00.000Z" ]}))
          0]
       sample_db).
Proof. vm_compute. reflexivity. Qed.

(** ** Unique identifiers *)

Lemma unique_ids_with_collection M c db :
  unique_ids db → NoDup (_id <$> c) → unique_ids (with_collection M c db).
Proof.
  intros Hu Hc N. unfold ids. destruct (decide (M = N)) as [<-|HN].
  - by rewrite collection_with_collection.
  - rewrite collection_with_collection_ne by exact HN. apply Hu.
Qed.

Lemma unique_ids_updated_or_not M put s body db :
  updated_or_not M put s body db → unique_ids db → unique_ids (put s body db).2.
Proof.
  intros [->|(i & up & _ & _ & ->)] Hu; [exact Hu|].
  apply unique_ids_with_collection; [exact Hu|].
  rewrite update_id_ids by reflexivity. apply Hu.
Qed.

Lemma unique_ids_deleted M i db :
  unique_ids db →
  unique_ids (with_collection M (Model.delete_id i (collection M db)).2 db).
Proof.
  intros Hu. apply unique_ids_with_collection; [exact Hu|].
  rewrite (delete_id_without _ _ (Hu M)). apply without_id_NoDup, Hu.
Qed.

Lemma unique_ids_saved M x db db' :
  Model.save M x db = Ok db' → unique_ids db → unique_ids db'.
Proof.
  intros (_ & Hid & ->)%save_Ok Hu.
  apply unique_ids_with_collection; [exact Hu|].
  rewrite fmap_app. apply NoDup_app. split; [apply Hu|]. split.
  - intros j Hj Hx. apply list_elem_of_singleton in Hx. subst j. by apply Hid.
  - apply NoDup_singleton.
Qed.

(** X7.  Every handler that writes keeps the identifiers of each
    collection unique, whatever the request: an update, a delete, and a
    create, where the server refuses a second document with an
    identifier of the collection. *)
Theorem writes_keep_ids_unique
    (id : string) (oid : ObjectId) (now : string) (body : gmap string value)
    (db : DB) :
  unique_ids db →
  (unique_ids (lessons_put id body db).2 ∧
   unique_ids (quizzes_put id body db).2 ∧
   unique_ids (submissions_put id body db).2 ∧
   unique_ids (courses_put id body db).2 ∧
   unique_ids (enrollments_put id body db).2) ∧
  (unique_ids (lessons_delete id db).2 ∧
   unique_ids (quizzes_delete id db).2 ∧
   unique_ids (submissions_delete id db).2 ∧
   unique_ids (courses_delete id db).2 ∧
   unique_ids (enrollments_delete id db).2) ∧
  (unique_ids (users_post oid body db).2 ∧
   unique_ids (quizzes_post oid body db).2 ∧
   unique_ids (lessons_post oid body db).2 ∧
   unique_ids (submissions_post oid body db).2 ∧
   unique_ids (courses_post oid body db).2 ∧
   unique_ids (enrollments_post oid now body db).2).
Proof.
  intros Hu.
  pose proof (put_db id body db) as (Hpl & Hpq & Hps & Hpc & Hpe).
  pose proof (delete_db_any id db) as (Hdl & Hdq & Hds & Hdc & Hde).
  split; [|split].
  - split; [|split; [|split; [|split]]];
      by eapply unique_ids_updated_or_not.
  - cbv zeta in Hdl, Hdq, Hds, Hdc, Hde.
    split; [|split; [|split; [|split]]];
      [destruct Hdl as [->|[i ->]] | destruct Hdq as [->|[i ->]]
      |destruct Hds as [->|[i ->]] | destruct Hdc as [->|[i ->]]
      |destruct Hde as [->|[i ->]]];
      first [exact Hu | by apply unique_ids_deleted].
  - unfold users_post, users_post_save, quizzes_post, lessons_post,
      submissions_post, courses_post, enrollments_post. cbv zeta.
    split; [|split; [|split; [|split; [|split]]]].
    + destruct (_ || _ || _); [exact Hu|].
      destruct (Model.findOne User _ db) as [[u0|]|e]; [exact Hu| |exact Hu].
      destruct (Model.save User _ db) as [db'|e] eqn:Hsave; [|exact Hu].
      by apply (unique_ids_saved _ _ _ _ Hsave).
    + destruct (Model.save Quiz _ db) as [db'|e] eqn:Hsave; [|exact Hu].
      by apply (unique_ids_saved _ _ _ _ Hsave).
    + destruct (Model.save Lesson _ db) as [db'|e] eqn:Hsave; [|exact Hu].
      by apply (unique_ids_saved _ _ _ _ Hsave).
    + destruct (Model.save Submission _ db) as [db'|e] eqn:Hsave; [|exact Hu].
      by apply (unique_ids_saved _ _ _ _ Hsave).
    + destruct (Model.save Course _ db) as [db'|e] eqn:Hsave; [|exact Hu].
      by apply (unique_ids_saved _ _ _ _ Hsave).
    + destruct (Model.save Enrollment _ db) as [db'|e] eqn:Hsave; [|exact Hu].
      by apply (unique_ids_saved _ _ _ _ Hsave).
Qed.

Lemma writes_keep_ids_unique_witness :
  unique_ids (quizzes_put q1 john_body sample_db).2 ∧
  unique_ids (courses_delete c1 sample_db).2 ∧
  unique_ids (users_post u1 jane_body sample_db).2 ∧
  users (users_post u1 jane_body sample_db).2 = [john].
Proof.
  pose proof (writes_keep_ids_unique q1 u1 "" john_body sample_db
                sample_db_unique_ids) as ((_ & Hput & _) & _ & _).
  pose proof (writes_keep_ids_unique c1 u1 "" jane_body sample_db
                sample_db_unique_ids) as (_ & (_ & _ & _ & Hdel & _) & Hpost & _).
  split; [exact Hput|]. split; [exact Hdel|]. split; [exact Hpost|].
  vm_compute. reflexivity.
Defined.

(** ** What a list shows after a write *)

Lemma populate_keeps_id M p db d (o : gmap string json) :
  p ≠ "_id" → Model.populate M p db d o !! "_id" = o !! "_id".
Proof.
  intros Hp. unfold Model.populate.
  destruct (path_of M p ≫= ref) as [R|]; [|reflexivity].
  destruct (fields d !! p); [|reflexivity].
  by rewrite lookup_insert_ne.
Qed.

Lemma render_id M ps db d :
  "_id" ∉ ps →
  ∃ m, render M ps db d = JObj m ∧ m !! "_id" = Some (JStr (_id d)).
Proof.
  intros Hps. unfold render. eexists. split; [reflexivity|].
  pose proof (toJSON_id d) as Hid. revert Hid. generalize (toJSON d).
  induction ps as [|p ps IH]; intros o Ho; cbn [foldl]; [exact Ho|].
  apply not_elem_of_cons in Hps as [Hp Hps]. apply IH; [exact Hps|].
  rewrite populate_keeps_id by congruence. exact Ho.
Qed.

Lemma listed_ids_listed M ps db l :
  "_id" ∉ ps →
  listed_ids (listed M ps db l).1 = (λ d, JStr (_id d)) <$> l.
Proof.
  intros Hps. unfold listed, res_json, res_status_json, listed_ids. cbn [fst].
  induction l as [|d l IH]; cbn [fmap list_fmap omap list_omap]; [reflexivity|].
  destruct (render_id M ps db d Hps) as (m & -> & ->). by rewrite <- IH.
Qed.

Lemma listed_ids_filter M ps db f c (i : ObjectId) :
  "_id" ∉ ps →
  JStr i ∈ listed_ids (listed M ps db (List.filter f c)).1 ↔
  ∃ d, d ∈ c ∧ f d = true ∧ _id d = i.
Proof.
  intros Hps. rewrite listed_ids_listed by exact Hps.
  rewrite list_elem_of_fmap. split.
  - intros (d & [= Hid] & Hd). apply list_elem_of_In, filter_In in Hd as [Hd Hf].
    exists d. split; [by apply list_elem_of_In|]. split; [exact Hf|].
    by apply ObjectId_eq.
  - intros (d & Hd & Hf & <-). exists d. split; [reflexivity|].
    apply list_elem_of_In, filter_In. split; [by apply list_elem_of_In|exact Hf].
Qed.

Lemma not_listed_after_delete M ps f (i : ObjectId) db db' :
  "_id" ∉ ps → collection M db' = without_id i (collection M db) →
  JStr i ∉ listed_ids (listed M ps db' (List.filter f (collection M db'))).1.
Proof.
  intros Hps Hcoll. rewrite listed_ids_filter by exact Hps.
  intros (d & Hd & _ & Hid). rewrite Hcoll in Hd.
  apply without_id_elem in Hd as [_ Hne]. by apply Hne.
Qed.

Lemma no_id_path (ps : list string) :
  bool_decide ("_id" ∉ ps) = true → "_id" ∉ ps.
Proof. apply bool_decide_eq_true. Qed.

(** A list request sends a list of documents of the collection that pass
    some test, or no list. *)
Lemma get_shape (regex : engine) q db :
  let shape M ps (r : outcome * DB) :=
    (∃ f, r = listed M ps db (List.filter f (collection M db))) ∨ listed_ids r.1 = [] in
  shape Lesson ["course"] (lessons_get q db) ∧
  shape Quiz ["lesson"] (quizzes_get q db) ∧
  shape Submission ["student"; "quiz"] (submissions_get q db) ∧
  shape Enrollment ["student"; "course"] (enrollments_get q db) ∧
  shape Course ["instructor"; "lessons"] (courses_get regex q db).
Proof.
  cbv zeta.
  unfold lessons_get, quizzes_get, submissions_get, enrollments_get, courses_get.
  cbv zeta.
  split; [|split; [|split; [|split]]].
  - destruct (find_shape Lesson (assign_if "course" (q !! "course") []) db)
      as [[f ->]|[e ->]]; [left; by exists f | by right].
  - destruct (find_shape Quiz (assign_if "lesson" (q !! "lesson") []) db)
      as [[f ->]|[e ->]]; [left; by exists f | by right].
  - destruct (find_shape Submission
                (assign_if "quiz" (q !! "quiz")
                   (assign_if "student" (q !! "student") [])) db)
      as [[f ->]|[e ->]]; [left; by exists f | by right].
  - destruct (find_shape Enrollment
                (assign_if "course" (q !! "course")
                   (assign_if "student" (q !! "student") [])) db)
      as [[f ->]|[e ->]]; [left; by exists f | by right].
  - destruct (assign_regex_if regex "title" (q !! "title") "i" []) as [query|e];
      [|by right].
    destruct (find_shape Course
                (assign_if "instructor" (q !! "instructor") query) db)
      as [[f ->]|[e ->]]; [left; by exists f | by right].
Qed.

(** X12.  With unique identifiers, a document that was deleted shows in
    no later list of its entity, whatever the filter: its identifier is
    not among the identifiers of the response. *)
Theorem deleted_document_is_not_listed
    (regex : engine) (id : ObjectId) (q : gmap string string) (db : DB) :
  unique_ids db →
  (JStr id ∉ listed_ids (lessons_get q (lessons_delete id db).2).1) ∧
  (JStr id ∉ listed_ids (quizzes_get q (quizzes_delete id db).2).1) ∧
  (JStr id ∉ listed_ids (submissions_get q (submissions_delete id db).2).1) ∧
  (JStr id ∉ listed_ids (enrollments_get q (enrollments_delete id db).2).1) ∧
  (JStr id ∉ listed_ids (courses_get regex q (courses_delete id db).2).1).
Proof.
  intros Hu.
  pose proof (delete_db id db) as (Hl & Hq & Hs & Hc & He).
  rewrite Hl, Hq, Hs, Hc, He.
  assert (Hnot : ∀ M ps (r : outcome * DB),
            "_id" ∉ ps →
            let db' := with_collection M (Model.delete_id id (collection M db)).2 db in
            (∃ f, r = listed M ps db' (List.filter f (collection M db')))
            ∨ listed_ids r.1 = [] →
            JStr id ∉ listed_ids r.1).
  { intros M ps r Hps db' [[f ->]| ->]; [|apply not_elem_of_nil].
    apply (not_listed_after_delete M ps f id db db' Hps).
    exact (proj1 (deleted_unique M id db Hu)). }
  split; [|split; [|split; [|split]]].
  - apply (Hnot Lesson ["course"]); [by apply no_id_path|].
    by pose proof (get_shape regex q
                     (with_collection Lesson (Model.delete_id id (lessons db)).2 db))
      as (H & _).
  - apply (Hnot Quiz ["lesson"]); [by apply no_id_path|].
    by pose proof (get_shape regex q
                     (with_collection Quiz (Model.delete_id id (quizzes db)).2 db))
      as (_ & H & _).
  - apply (Hnot Submission ["student"; "quiz"]); [by apply no_id_path|].
    by pose proof (get_shape regex q
                     (with_collection Submission
                        (Model.delete_id id (submissions db)).2 db))
      as (_ & _ & H & _).
  - apply (Hnot Enrollment ["student"; "course"]); [by apply no_id_path|].
    by pose proof (get_shape regex q
                     (with_collection Enrollment
                        (Model.delete_id id (enrollments db)).2 db))
      as (_ & _ & _ & H & _).
  - apply (Hnot Course ["instructor"; "lessons"]); [by apply no_id_path|].
    by pose proof (get_shape regex q
                     (with_collection Course (Model.delete_id id (courses db)).2 db))
      as (_ & _ & _ & _ & H).
Qed.

Lemma deleted_document_is_not_listed_witness :
  (JStr q1 ∉ listed_ids (quizzes_get ∅ (quizzes_delete q1 sample_db).2).1) ∧
  listed_ids (quizzes_get ∅ sample_db).1 = [JStr q1].
Proof.
  pose proof (deleted_document_is_not_listed small_engine q1 ∅ sample_db
                sample_db_unique_ids) as (_ & Hq & _).
  split; [exact Hq|]. vm_compute. reflexivity.
Defined.

(** ** References to a deleted document *)

Lemma render_single M p R db d (i : ObjectId) :
  path_of M p ≫= ref = Some R →
  fields d !! p = Some (VStr i) →
  render M [p] db d = JObj (<[p := doc_json (Model.findById R i db)]> (toJSON d)).
Proof.
  intros Hp Hd. unfold render. cbn [foldl]. unfold Model.populate.
  rewrite Hp, Hd. cbn [Model.expand]. unfold Model.dereference.
  by rewrite castObjectId_toHexString.
Qed.

(** X14.  Nothing is deleted in cascade, and a reference to a deleted
    document is kept: with unique identifiers, after DELETE of a lesson
    the quizzes are as they were, and a quiz whose lesson is the deleted
    one is rendered by the quiz list with [lesson: null]; the same for
    the lessons of a deleted course. *)
Theorem delete_leaves_references (id : ObjectId) (db : DB) :
  unique_ids db →
  (quizzes (lessons_delete id db).2 = quizzes db ∧
   ∀ d, fields d !! "lesson" = Some (VStr id) →
        render Quiz ["lesson"] (lessons_delete id db).2 d
          = JObj (<["lesson" := JNull]> (toJSON d))) ∧
  (lessons (courses_delete id db).2 = lessons db ∧
   ∀ d, fields d !! "course" = Some (VStr id) →
        render Lesson ["course"] (courses_delete id db).2 d
          = JObj (<["course" := JNull]> (toJSON d))).
Proof.
  intros Hu.
  pose proof (delete_db id db) as (Hl & _ & _ & Hc & _). rewrite Hl, Hc.
  pose proof (deleted_unique Lesson id db Hu) as (_ & Hgone & _ & Hother).
  pose proof (deleted_unique Course id db Hu) as (_ & Hgone' & _ & Hother').
  cbn [collection] in Hgone, Hgone'.
  split; split.
  - apply (Hother Quiz). discriminate.
  - intros d Hd.
    rewrite (render_single Quiz "lesson" Lesson _ d id eq_refl Hd).
    by rewrite Hgone.
  - apply (Hother' Lesson). discriminate.
  - intros d Hd.
    rewrite (render_single Lesson "course" Course _ d id eq_refl Hd).
    by rewrite Hgone'.
Qed.

Lemma delete_leaves_references_witness :
  quizzes (lessons_delete l1 sample_db).2 = [node_quiz] ∧
  render Quiz ["lesson"] (lessons_delete l1 sample_db).2 node_quiz
    = JObj (<["lesson" := JNull]> (toJSON node_quiz)).
Proof.
  pose proof (delete_leaves_references l1 sample_db sample_db_unique_ids)
    as ((Hquizzes & Hnull) & _).
  split; [exact Hquizzes|]. apply Hnull. reflexivity.
Defined.

(** ** Create, then find, list and delete *)

Lemma delete_id_snoc i c d :
  i ∉ _id <$> c → _id d = i → Model.delete_id i (c ++ [d]) = (Some d, c).
Proof.
  intros Hi Hd. induction c as [|e c IH]; cbn [app Model.delete_id].
  - by rewrite decide_True.
  - cbn [fmap list_fmap] in Hi. apply not_elem_of_cons in Hi as [Hne Hi].
    rewrite decide_False by congruence. by rewrite (IH Hi).
Qed.

(** A POST /api/quizzes that answered 201 has appended the quiz it
    answered with, under an identifier that was new. *)
Lemma quizzes_post_created oid body db :
  status_of (quizzes_post oid body db).1 = Some 201 →
  ∃ d,
    quizzes_post oid body db
      = (res_status_json 201 (JObj (toJSON d)),
         with_collection Quiz (quizzes db ++ [d]) db) ∧
    (_id d ∉ ids Quiz db).
Proof.
  unfold quizzes_post. cbv zeta.
  destruct (Model.save Quiz _ db) as [db'|e] eqn:Hsave; [|discriminate].
  intros _. apply save_Ok in Hsave as (_ & Hid & ->).
  eexists. split; [reflexivity | exact Hid].
Qed.

(** X9.  A quiz that was just created (the create answered 201) is
    found by the identifier it was answered with, and DELETE of that
    identifier answers "Quiz deleted" and gives back the database as it
    was before the create. *)
Theorem quizzes_post_then_delete (oid : ObjectId) (body : gmap string value) (db : DB) :
  status_of (quizzes_post oid body db).1 = Some 201 →
  ∃ d,
    (quizzes_post oid body db).1 = res_status_json 201 (JObj (toJSON d)) ∧
    Model.findById Quiz (_id d) (quizzes_post oid body db).2 = Some d ∧
    quizzes_delete (_id d) (quizzes_post oid body db).2
      = (res_json (message_body "Quiz deleted"), db).
Proof.
  intros Hcreated.
  destruct (quizzes_post_created oid body db Hcreated) as (d & -> & Hid).
  exists d. cbn [fst snd]. split; [reflexivity|].
  assert (Hfound : Model.findById Quiz (_id d)
                     (with_collection Quiz (quizzes db ++ [d]) db) = Some d).
  { unfold Model.findById. rewrite collection_with_collection, lookup_id_snoc.
    apply lookup_id_None in Hid. cbn [collection] in Hid. rewrite Hid.
    by rewrite decide_True. }
  split; [exact Hfound|].
  unfold quizzes_delete. rewrite findByIdAndDelete_identifier, Hfound.
  rewrite collection_with_collection.
  rewrite (delete_id_snoc (_id d) (quizzes db) d Hid eq_refl). cbn [snd].
  rewrite with_collection_twice. f_equal. apply (with_collection_id Quiz db).
Qed.

Lemma quizzes_post_then_delete_witness :
  ∃ d,
    (quizzes_post q2
       (<["question" := VStr "What is Express?"]>
        (<["answer" := VStr "A framework"]> {[ "lesson" := VStr l1 ]}))
       sample_db).1 = res_status_json 201 (JObj (toJSON d)) ∧
    quizzes_delete (_id d)
      (quizzes_post q2
         (<["question" := VStr "What is Express?"]>
          (<["answer" := VStr "A framework"]> {[ "lesson" := VStr l1 ]}))
         sample_db).2
      = (res_json (message_body "Quiz deleted"), sample_db).
Proof.
  pose proof (quizzes_post_then_delete q2
                (<["question" := VStr "What is Express?"]>
                 (<["answer" := VStr "A framework"]> {[ "lesson" := VStr l1 ]}))
                sample_db eq_refl) as (d & Hres & _ & Hdel).
  exists d. split; [exact Hres | exact Hdel].
Defined.

Lemma users_get_ids db :
  listed_ids (users_get db).1 = (λ d, JStr (_id d)) <$> users db.
Proof.
  rewrite users_get_eval. unfold res_json, res_status_json, listed_ids. cbn [fst].
  induction (users db) as [|d l IH]; cbn [fmap list_fmap omap list_omap];
    [reflexivity|].
  rewrite lookup_delete_ne by discriminate. by rewrite toJSON_id, <- IH.
Qed.

(** X13.  What was created is listed.  After a 201 from POST /api/quizzes
    the new quiz is in the quiz list without a filter and in the list
    filtered by its lesson; after a 201 from POST /api/users the new user
    is in the user list. *)
Theorem created_document_is_listed
    (oid : ObjectId) (body : gmap string value) (db : DB) :
  (status_of (quizzes_post oid body db).1 = Some 201 →
   ∃ d,
     (quizzes_post oid body db).1 = res_status_json 201 (JObj (toJSON d)) ∧
     JStr (_id d) ∈ listed_ids (quizzes_get ∅ (quizzes_post oid body db).2).1 ∧
     ∀ l : ObjectId,
       fields d !! "lesson" = Some (VStr l) →
       JStr (_id d)
         ∈ listed_ids
             (quizzes_get {[ "lesson" := (l : string) ]}
                (quizzes_post oid body db).2).1) ∧
  (status_of (users_post oid body db).1 = Some 201 →
   JStr oid ∈ listed_ids (users_get (users_post oid body db).2).1).
Proof.
  split.
  - intros Hcreated.
    destruct (quizzes_post_created oid body db Hcreated) as (d & -> & Hid).
    exists d. cbn [fst snd]. split; [reflexivity|].
    assert (Hin : d ∈ quizzes (with_collection Quiz (quizzes db ++ [d]) db)).
    { cbn [quizzes with_collection]. apply elem_of_app. right.
      apply list_elem_of_here. }
    split.
    + rewrite quizzes_get_eval by reflexivity.
      apply listed_ids_filter; [by apply no_id_path|].
      exists d. split; [exact Hin|]. split; reflexivity.
    + intros l Hl.
      assert (Hq : ({[ "lesson" := (l : string) ]} : gmap string string) !! "lesson"
                   = Some (l : string)) by apply lookup_singleton_eq.
      rewrite quizzes_get_eval; rewrite Hq.
      2:{ cbn. pose proof (ObjectId_hexadecimal l) as Hhex.
          apply Is_true_true_1 in Hhex. rewrite Hhex. apply orb_true_r. }
      apply listed_ids_filter; [by apply no_id_path|].
      exists d. split; [exact Hin|]. split; [|reflexivity].
      unfold criterion, ref_is. case_bool_decide; [reflexivity|].
      by apply bool_decide_eq_true.
  - intros Hcreated.
    destruct (users_post_created oid body db Hcreated) as (-> & _ & _).
    cbn [fst snd]. rewrite users_get_ids. cbn [users with_collection].
    rewrite fmap_app. apply elem_of_app. right.
    cbn [fmap list_fmap]. rewrite new_user_id. apply list_elem_of_here.
Qed.

Lemma created_document_is_listed_witness :
  (∃ d,
     (quizzes_post q2
        (<["question" := VStr "What is Express?"]>
         (<["answer" := VStr "A framework"]> {[ "lesson" := VStr l1 ]}))
        sample_db).1 = res_status_json 201 (JObj (toJSON d)) ∧
     JStr (_id d)
       ∈ listed_ids
           (quizzes_get ∅
              (quizzes_post q2
                 (<["question" := VStr "What is Express?"]>
                  (<["answer" := VStr "A framework"]> {[ "lesson" := VStr l1 ]}))
                 sample_db).2).1) ∧
  JStr u2 ∈ listed_ids (users_get (users_post u2 jane_body sample_db).2).1.
Proof.
  pose proof (created_document_is_listed q2
                (<["question" := VStr "What is Express?"]>
                 (<["answer" := VStr "A framework"]> {[ "lesson" := VStr l1 ]}))
                sample_db) as [Hquiz _].
  pose proof (created_document_is_listed u2 jane_body sample_db) as [_ Huser].
  split.
  - pose proof (Hquiz eq_refl) as (d & Hres & Hall & _).
    exists d. split; [exact Hres | exact Hall].
  - exact (Huser eq_refl).
Defined.

(** ** The same email again *)

(** X10.  Once a create has answered 201, every later create whose body
    has the same email (and a name and a role) answers 400 "User already
    exists" and leaves the database as it is, whatever identifier is
    generated for it. *)
Theorem users_post_same_email_again
    (oid oid' : ObjectId) (body body' : gmap string value) (db : DB) :
  status_of (users_post oid body db).1 = Some 201 →
  body' !! "email" = body !! "email" →
  ¬ missing body' "name" → ¬ missing body' "role" →
  users_post oid' body' (users_post oid body db).2
    = (res_status_json 400 (message_body "User already exists"),
       (users_post oid body db).2).
Proof.
  intros Hcreated Hsame Hn Hr.
  destruct (users_post_created oid body db Hcreated) as (-> & Htruthy & _).
  cbn [fst snd].
  assert (Hin : "email" ∈ ["name"; "email"; "role"]) by (apply three_fields; auto).
  pose proof (Htruthy "email" Hin) as Hemail.
  rewrite new_user_lookup, decide_True in Hemail by exact Hin.
  assert (∃ e, body !! "email" = Some (VStr e) ∧ e ≠ "") as (e & He & Hne).
  { destruct (body !! "email") as [[e|l]|]; cbn in Hemail;
      [|discriminate Hemail|discriminate Hemail].
    exists e. split; [reflexivity|]. by apply bool_decide_eq_true in Hemail. }
  apply truthy_not_missing in Hn, Hr.
  unfold users_post. rewrite Hn, Hr, Hsame, He. cbn [truthy negb orb from_option].
  rewrite (bool_decide_eq_true_2 _ Hne). cbn [negb orb].
  rewrite findOne_email.
  destruct (head _) as [u0|] eqn:Hhead; [reflexivity|].
  exfalso. rewrite head_filter_None in Hhead.
  specialize (Hhead (new_user oid body)).
  rewrite bool_decide_eq_false in Hhead. apply Hhead.
  - cbn [users with_collection]. apply elem_of_app. right. apply list_elem_of_here.
  - rewrite new_user_lookup, decide_True by exact Hin.
    by rewrite He.
Qed.

Lemma users_post_same_email_again_witness :
  users_post u2
    (<["name" := VStr "Johnny"]>
     (<["email" := VStr "john@example.com"]> {[ "role" := VStr "instructor" ]}))
    (users_post u1 john_body empty_db).2
  = (res_status_json 400 (message_body "User already exists"),
     (users_post u1 john_body empty_db).2).
Proof.
  assert (Hsame : (<["name" := VStr "Johnny"]>
                   (<["email" := VStr "john@example.com"]>
                    ({[ "role" := VStr "instructor" ]} : gmap string value)))
                    !! "email" = john_body !! "email")
    by (vm_compute; reflexivity).
  pose proof (users_post_same_email_again u1 u2 john_body _ empty_db eq_refl Hsame)
    as H.
  apply H; unfold missing; vm_compute; discriminate.
Defined.

(** X11.  The check of the email and the save are two awaits, and the
    save does not check again.  When a create has answered 201, a second
    create of the same body whose check ran before that save (so that it
    found no user with the email) saves its user as well: the users end
    with two documents of different identifiers and the same fields, the
    email among them. *)
Theorem users_post_check_then_save
    (oid oid' : ObjectId) (body : gmap string value) (db : DB) :
  status_of (users_post oid body db).1 = Some 201 →
  fresh oid' User (users_post oid body db).2 →
  ∃ u u',
    (users_post_save oid' body (users_post oid body db).2).1
      = res_status_json 201 (JObj (toJSON u')) ∧
    users (users_post_save oid' body (users_post oid body db).2).2
      = users db ++ [u; u'] ∧
    _id u = oid ∧ _id u' = oid' ∧ oid ≠ oid' ∧
    fields u' = fields u ∧ is_Some (fields u !! "email").
Proof.
  intros Hcreated Hfresh.
  assert (Hsaved : ∃ db1,
            Model.save User
              (Model.new User oid
                 (object_literal [ ("name", body !! "name");
                                   ("email", body !! "email");
                                   ("role", body !! "role") ])) db = Ok db1).
  { revert Hcreated. unfold users_post.
    destruct (_ || _ || _); [discriminate|].
    destruct (Model.findOne User _ db) as [[u0|]|e]; [discriminate| |discriminate].
    unfold users_post_save. cbv zeta.
    destruct (Model.save User _ db) as [db1|e]; [by eexists | discriminate]. }
  destruct Hsaved as (db1 & Hsave).
  pose proof (save_Ok _ _ _ _ Hsave) as (Hvalid & _ & _).
  destruct (users_post_created oid body db Hcreated) as (Heq & Htruthy & Hnew).
  rewrite Heq in *. cbn [fst snd] in *.
  exists (new_user oid body), (new_user oid' body).
  unfold users_post_save. cbv zeta.
  rewrite save_valid; [|exact Hvalid|fold (new_user oid' body); by rewrite new_user_id].
  cbn [fst snd]. fold (new_user oid' body).
  split; [reflexivity|].
  split; [cbn [users collection with_collection]; by rewrite <- app_assoc|].
  split; [apply new_user_id|]. split; [apply new_user_id|].
  split.
  { intros ->. apply Hfresh. unfold ids. cbn [collection users with_collection].
    rewrite fmap_app. apply elem_of_app. right. cbn [fmap list_fmap].
    rewrite new_user_id. apply list_elem_of_here. }
  split; [reflexivity|].
  assert (Hin : "email" ∈ ["name"; "email"; "role"]) by (apply three_fields; auto).
  pose proof (Htruthy "email" Hin) as Hemail.
  destruct (fields (new_user oid body) !! "email"); [by eexists|].
  discriminate Hemail.
Qed.

Lemma users_post_check_then_save_witness :
  ∃ u u',
    users (users_post_save u2 john_body (users_post u1 john_body empty_db).2).2
      = [u; u'] ∧
    _id u = u1 ∧ _id u' = u2 ∧
    fields u' = fields u ∧ is_Some (fields u !! "email").
Proof.
  pose proof (users_post_check_then_save u1 u2 john_body empty_db eq_refl) as H.
  destruct H as (u & u' & _ & Husers & Hid & Hid' & _ & Hsame & Hemail).
  { apply (bool_decide_unpack _). vm_compute. exact I. }
  exists u, u'. split; [exact Husers|]. split; [exact Hid|].
  split; [exact Hid'|]. split; [exact Hsame | exact Hemail].
Defined.
